(** * Document store and command lifecycle: a shallow embedding

    The Python sources embedded here are
    - [models/models.py]                          (module [Models]),
    - [datastore/providers/pgvector_datastore.py] (modules [PGClient] and
      [PgVectorDataStore]),
    - [datastore/providers/supabase_datastore.py] (module [SupabaseClient]),
    - [local_server/main.py]                      (module [Main]).

    Python values that travel to the backend are embedded as [pyval];
    asynchronous methods become computations of the monad [M], which threads
    the world (wall clock and the chronological trace of observable events)
    and carries Python exceptions as [Raise]. *)

From Stdlib Require Import ZArith List Ascii String Bool Lia.
Import ListNotations.
Open Scope string_scope.
Open Scope list_scope.
Open Scope Z_scope.

(** ** Python values *)

(** A float is carried as its IEEE-754 bit pattern; no claim computes on it. *)
Inductive pyfloat := Float64 (bits : Z).

Scheme All for list.
Scheme All for prod.

Inductive pyval :=
| PNone
| PBool (b : bool)
| PInt (z : Z)
| PFloat (f : pyfloat)
| PStr (s : string)
| PEnum (cls : string) (value : string)  (* a member of a [str]-valued Enum *)
| PDatetime (ts : Z)                     (* [datetime.fromtimestamp(ts)] *)
| PTuple (l : list pyval)
| PList (l : list pyval)
| PDict (d : list (string * pyval)).     (* a dict, in insertion order *)

Definition pydict := list (string * pyval).

Inductive exn :=
| AttributeError (attr : string)
| IndexError
| KeyError (key : string)
| TypeError
| ValueError
| ValidationError
| BackendError (msg : string)            (* raised by the storage backend *)
| HTTPException (status_code : Z) (detail : string).

Inductive Res (A : Type) :=
| Ok (a : A)
| Raise (e : exn).
Arguments Ok {A} a.
Arguments Raise {A} e.

Definition is_ok {A} (r : Res A) : bool :=
  match r with Ok _ => true | Raise _ => false end.

(** [v is None] *)
Definition is_None (v : pyval) : bool :=
  match v with PNone => true | _ => false end.

(** [d[k] = v] on a dict: replaces the value of an existing key in place,
    appends a new key at the end. *)
Fixpoint dict_set (d : pydict) (k : string) (v : pyval) : pydict :=
  match d with
  | [] => [(k, v)]
  | (k', v') :: t => if String.eqb k' k then (k, v) :: t else (k', v') :: dict_set t k v
  end.

Fixpoint dict_get (d : pydict) (k : string) : option pyval :=
  match d with
  | [] => None
  | (k', v) :: t => if String.eqb k' k then Some v else dict_get t k
  end.

(** [k in d] *)
Definition dict_mem (d : pydict) (k : string) : bool :=
  match dict_get d k with Some _ => true | None => false end.

(** [v[k]] with a string key. *)
Definition getitem (v : pyval) (k : string) : Res pyval :=
  match v with
  | PDict d => match dict_get d k with Some x => Ok x | None => Raise (KeyError k) end
  | _ => Raise TypeError
  end.

(** [v[0]] *)
Definition getitem0 (v : pyval) : Res pyval :=
  match v with
  | PTuple (x :: _) | PList (x :: _) => Ok x
  | PTuple [] | PList [] => Raise IndexError
  | PStr (String c _) | PEnum _ (String c _) => Ok (PStr (String c EmptyString))
  | PStr EmptyString | PEnum _ EmptyString => Raise IndexError
  | PDict _ => Raise (KeyError "0")
  | _ => Raise TypeError
  end.

(** Python truthiness of an optional string field: [None] and [""] are falsy. *)
Definition truthy_str (o : option string) : bool :=
  match o with
  | Some s => negb (String.eqb s "")
  | None => false
  end.

(** Truthiness of an optional list: [None] and [[]] are falsy. *)
Definition truthy_list {A} (o : option (list A)) : bool :=
  match o with
  | Some (_ :: _) => true
  | _ => false
  end.

(** Truthiness of an optional bool: [None] and [False] are falsy. *)
Definition truthy_bool (o : option bool) : bool :=
  match o with
  | Some b => b
  | None => false
  end.

(** Truthiness of an optional int: [None] and [0] are falsy. *)
Definition truthy_int (o : option Z) : bool :=
  match o with
  | Some z => negb (z =? 0)
  | None => false
  end.

(** An optional string as a Python value. *)
Definition of_opt_str (o : option string) : pyval :=
  match o with Some s => PStr s | None => PNone end.

(** ** models/models.py *)

Module Models.

Inductive Source := EMAIL | FILE | CHAT.

Definition Source_value (s : Source) : string :=
  match s with EMAIL => "EMAIL" | FILE => "FILE" | CHAT => "CHAT" end.

Inductive CommandStatus := NEW | PROCESSING | COMPLETED | ABANDONED | ERROR.

Definition CommandStatus_value (s : CommandStatus) : string :=
  match s with
  | NEW => "NEW" | PROCESSING => "PROCESSING" | COMPLETED => "COMPLETED"
  | ABANDONED => "ABANDONED" | ERROR => "ERROR"
  end.

Inductive CommandType := CREATE_NOTE | MODIFY_NOTE | DELETE_NOTE.

Definition CommandType_value (t : CommandType) : string :=
  match t with
  | CREATE_NOTE => "CREATE_NOTE" | MODIFY_NOTE => "MODIFY_NOTE"
  | DELETE_NOTE => "DELETE_NOTE"
  end.

(** Enum members as Python values. *)
Definition of_Source (s : Source) : pyval := PEnum "Source" (Source_value s).
Definition of_CommandStatus (s : CommandStatus) : pyval :=
  PEnum "CommandStatus" (CommandStatus_value s).
Definition of_CommandType (t : CommandType) : pyval :=
  PEnum "CommandType" (CommandType_value t).

Definition of_opt_Source (o : option Source) : pyval :=
  match o with Some s => of_Source s | None => PNone end.

Module DocumentMetadata.
Record t := mk {
  source : option Source;
  source_id : option string;
  url : option string;
  created_at : option string;
  author : option string }.

(** pydantic's [.dict()] *)
Definition dict (m : t) : pydict :=
  [("source", of_opt_Source (source m));
   ("source_id", of_opt_str (source_id m));
   ("url", of_opt_str (url m));
   ("created_at", of_opt_str (created_at m));
   ("author", of_opt_str (author m))].
End DocumentMetadata.

Module DocumentChunkMetadata.
Record t := mk {
  source : option Source;
  source_id : option string;
  url : option string;
  created_at : option string;
  author : option string;
  document_id : option string }.
End DocumentChunkMetadata.

Module DocumentChunk.
Record t := mk {
  id : option string;
  text : string;
  metadata : DocumentChunkMetadata.t;
  embedding : option (list pyfloat) }.
End DocumentChunk.

Module DocumentChunkWithScore.
Record t := mk {
  id : option string;
  text : string;
  metadata : DocumentChunkMetadata.t;
  embedding : option (list pyfloat);
  score : pyfloat }.
End DocumentChunkWithScore.

Module DocumentMetadataFilter.
Record t := mk {
  document_id : option string;
  source : option Source;
  source_id : option string;
  author : option string;
  start_date : option string;
  end_date : option string }.
End DocumentMetadataFilter.

Module QueryWithEmbedding.
Record t := mk {
  query : string;
  filter : option DocumentMetadataFilter.t;
  top_k : option Z;
  embedding : list pyfloat }.
End QueryWithEmbedding.

Module QueryResult.
Record t := mk {
  query : string;
  results : list DocumentChunkWithScore.t }.
End QueryResult.

Module CommandContent.
Record t := mk {
  text : string;
  metadata : DocumentMetadata.t }.

Definition dict (c : t) : pydict :=
  [("text", PStr (text c));
   ("metadata", PDict (DocumentMetadata.dict (metadata c)))].
End CommandContent.

Module Command.
Record t := mk {
  id : option string;
  status : CommandStatus;
  errors : option string;
  created_at : option string;
  updated_at : option string }.

(** [list(Command.schema().get('properties').keys())] *)
Definition fields : list string :=
    ["id"; "status"; "errors"; "created_at"; "updated_at"].
End Command.

Module CommandWithContent.
Record t := mk {
  id : option string;
  status : CommandStatus;
  errors : option string;
  created_at : option string;
  updated_at : option string;
  type : CommandType;
  content : CommandContent.t }.

Definition dict (c : t) : pydict :=
  [("id", of_opt_str (id c));
   ("status", of_CommandStatus (status c));
   ("errors", of_opt_str (errors c));
   ("created_at", of_opt_str (created_at c));
   ("updated_at", of_opt_str (updated_at c));
   ("type", of_CommandType (type c));
   ("content", PDict (CommandContent.dict (content c)))].

(** [command.id = v] *)
Definition set_id (c : t) (v : option string) : t :=
    mk v (status c) (errors c) (created_at c) (updated_at c) (type c) (content c).

(** [command.status = s] *)
Definition set_status (c : t) (s : CommandStatus) : t :=
    mk (id c) s (errors c) (created_at c) (updated_at c) (type c) (content c).
End CommandWithContent.

(** models/api.py is not among the sources; [CommandResponse] is used by
    [local_server/main.py] with the two keyword arguments [id] and [errors]. *)
Module CommandResponse.
Record t := mk {
  id : string;
  errors : option string }.
End CommandResponse.

End Models.

Import Models.

(** ** The world: backend requests, events, clock *)

(** A filter appended to a Supabase request builder. *)
Inductive cond :=
| Eq_ (column : string) (value : pyval)          (* [.eq(column, value)] *)
| Gte (column : string) (value : pyval)          (* [.gte(column, value)] *)
| Lte (column : string) (value : pyval)          (* [.lte(column, value)] *)
| Like (column : string) (pattern : string)      (* [.like(column, pattern)] *)
| In_ (column : string) (values : list string).  (* [.in_(column, values)] *)

(** A request built on the Supabase [Client], as handed to [.execute()]. *)
Inductive request :=
| Upsert (table : string) (json : pydict)
| Update (table : string) (json : pydict) (filters : list cond)
| Select (table : string) (columns : string) (filters : list cond)
| Delete (table : string) (filters : list cond)
| Rpc (function_name : string) (params : pydict).

Inductive level := INFO | ERROR_.

(** A log message: literal text, [str(v)] of a value, [str(e)] of an
    exception, or [e.__cause__]. *)
Inductive logpart :=
| Text (s : string)
| Obj (v : pyval)
| Exn (e : exn)
| Cause (e : exn).

Inductive event :=
| Execute (r : request)          (* a request executed against the backend *)
| Sleep (seconds : Z)            (* [asyncio.sleep(seconds)] *)
| Log (l : level) (msg : list logpart).

Record World := mkWorld {
  now : Z;                       (* the reading of [time.time()] *)
  trace : list event }.          (* events so far, oldest first *)

(** What the program does not define itself: library functions, the module
    [services/date.py] (not among the sources), and the behaviour of the
    backend, which may depend on everything that happened before. *)
Record Env := mkEnv {
  to_unix_timestamp : string -> Z;
  isoformat : Z -> string;                       (* [datetime.isoformat()] *)
  float : pyval -> Res pyfloat;                  (* the builtin [float(v)] *)
  new_Command : pyval -> Res Command.t;          (* the validating constructor [Command], on a row's keywords *)
  new_DocumentChunkMetadata : pydict -> Res DocumentChunkMetadata.t;
  new_DocumentChunkWithScore :
    pyval -> pyval -> pyfloat -> DocumentChunkMetadata.t ->
    Res DocumentChunkWithScore.t;
  str : exn -> string;                           (* [str(e)] *)
  format : string -> exn -> Res string;          (* [message.format(e)] *)
  uuid4 : list event -> string;                  (* [str(uuid4())] *)
  execute : list event -> request -> Res (list pyval);  (* [response.data] *)
  tick : list event -> Z }.                      (* time the next effect takes *)

(** An event happens: it is appended to the trace and the clock moves on,
    by what the environment says for a request, by that and the requested
    time for a sleep.  Writing a log line takes no time. *)
Definition emit (E : Env) (ev : event) (w : World) : World :=
  match ev with
  | Execute _ => mkWorld (now w + tick E (trace w)) (trace w ++ [ev])
  | Sleep seconds => mkWorld (now w + seconds + tick E (trace w)) (trace w ++ [ev])
  | Log _ _ => mkWorld (now w) (trace w ++ [ev])
  end.

(** ** The monad of asynchronous methods *)

Definition M (A : Type) : Type := World -> Res A * World.

Definition ret {A} (a : A) : M A := fun w => (Ok a, w).

Definition raise {A} (e : exn) : M A := fun w => (Raise e, w).

Definition bind {A B} (m : M A) (k : A -> M B) : M B :=
  fun w =>
    match m w with
    | (Ok a, w') => k a w'
    | (Raise e, w') => (Raise e, w')
    end.

(** [try: m  except Exception as e: handler e] *)
Definition try_except {A} (m : M A) (handler : exn -> M A) : M A :=
  fun w =>
    match m w with
    | (Ok a, w') => (Ok a, w')
    | (Raise e, w') => handler e w'
    end.

Definition lift {A} (r : Res A) : M A := fun w => (r, w).

Notation "x <- m ;; k" := (bind m (fun x => k))
  (at level 61, m at next level, right associativity).
Notation "m ;;; k" := (bind m (fun _ => k))
  (at level 61, right associativity).

(** [logger.info(msg)] / [logger.error(msg)] *)
Definition log (l : level) (msg : list logpart) : M unit :=
  fun w => (Ok tt, mkWorld (now w) (trace w ++ [Log l msg])).

(** [for x in l: body x] *)
Fixpoint for_each {A} (l : list A) (body : A -> M unit) : M unit :=
  match l with
  | [] => ret tt
  | x :: t => body x ;;; for_each t body
  end.

(** [out = []; for x in l: out.append(body x)] *)
Fixpoint for_collect {A B} (l : list A) (body : A -> M B) : M (list B) :=
  match l with
  | [] => ret []
  | x :: t => y <- body x ;; ys <- for_collect t body ;; ret (y :: ys)
  end.

(** [v.isoformat()] *)
Definition isoformat_of (E : Env) (v : pyval) : Res pyval :=
  match v with
  | PDatetime ts => Ok (PStr (isoformat E ts))
  | _ => Raise (AttributeError "isoformat")
  end.

(** ** datastore/providers/pgvector_datastore.py: the client interface *)

Module PGClient.
Class t := mk {
  upsert : string -> pydict -> M unit;
  update : string -> pydict -> M unit;
  rpc : string -> pydict -> M (list pyval);
  delete_like : string -> string -> string -> M unit;
  delete_in : string -> string -> list string -> M unit;
  delete_by_filters : string -> DocumentMetadataFilter.t -> M unit;
  get_by_id : string -> string -> option (list string) -> M (list pyval) }.
End PGClient.

(** ** datastore/providers/pgvector_datastore.py: [PgVectorDataStore] *)

Module PgVectorDataStore.
Section WithClient.
Context (E : Env) {client : PGClient.t}.

Definition of_opt_embedding (o : option (list pyfloat)) : pyval :=
  match o with Some l => PList (map PFloat l) | None => PNone end.

(** The row built for one chunk in [_upsert]; [created_at] is set to a
    one-element tuple holding the timestamp (the source has a trailing comma). *)
Definition chunk_json (document_id : string) (chunk : DocumentChunk.t) : pydict :=
  let metadata := DocumentChunk.metadata chunk in
  let json :=
    [("id", of_opt_str (DocumentChunk.id chunk));
     ("content", PStr (DocumentChunk.text chunk));
     ("embedding", of_opt_embedding (DocumentChunk.embedding chunk));
     ("document_id", PStr document_id);
     ("source", of_opt_Source (DocumentChunkMetadata.source metadata));
     ("source_id", of_opt_str (DocumentChunkMetadata.source_id metadata));
     ("url", of_opt_str (DocumentChunkMetadata.url metadata));
     ("author", of_opt_str (DocumentChunkMetadata.author metadata))] in
  match DocumentChunkMetadata.created_at metadata with
  | Some created_at =>
      if truthy_str (Some created_at)
      then dict_set json "created_at"
             (PTuple [PDatetime (to_unix_timestamp E created_at)])
      else json
  | None => json
  end.

Definition _upsert (chunks : list (string * list DocumentChunk.t)) : M (list string) :=
  for_each chunks (fun '(document_id, document_chunks) =>
    for_each document_chunks (fun chunk =>
      PGClient.upsert "documents" (chunk_json document_id chunk))) ;;;
  ret (map fst chunks).

(** [if field: params[key] = value(field)], for an optional string field. *)
Definition set_if_truthy (params : pydict) (field : option string) (key : string)
    (value : string -> pyval) : pydict :=
  match field with
  | Some v => if truthy_str (Some v) then dict_set params key (value v) else params
  | None => params
  end.

(** The filter part of the parameters built in [_query].  A [Source] member
    is a non-empty string, hence truthy whenever the field is set. *)
Definition filter_params (params : pydict) (filter : DocumentMetadataFilter.t) : pydict :=
  let params :=
    set_if_truthy params (DocumentMetadataFilter.document_id filter) "in_document_id" PStr in
  let params :=
    match DocumentMetadataFilter.source filter with
    | Some s => dict_set params "in_source" (PStr (Source_value s))
    | None => params
    end in
  let params :=
    set_if_truthy params (DocumentMetadataFilter.source_id filter) "in_source_id" PStr in
  let params :=
    set_if_truthy params (DocumentMetadataFilter.author filter) "in_author" PStr in
  let params :=
    set_if_truthy params (DocumentMetadataFilter.start_date filter) "in_start_date"
      (fun v => PDatetime (to_unix_timestamp E v)) in
  set_if_truthy params (DocumentMetadataFilter.end_date filter) "in_end_date"
    (fun v => PDatetime (to_unix_timestamp E v)).

(** The parameters of the similarity call built for one query. *)
Definition query_params (query : QueryWithEmbedding.t) : pydict :=
  let params := [("in_embedding", PList (map PFloat (QueryWithEmbedding.embedding query)))] in
  let params :=
    match QueryWithEmbedding.top_k query with
    | Some k => if truthy_int (Some k) then dict_set params "in_match_count" (PInt k) else params
    | None => params
    end in
  match QueryWithEmbedding.filter query with
  | Some filter => filter_params params filter
  | None => params
  end.

(** The body of [for row in data] in [_query]. *)
Definition row_to_chunk (row : pyval) : M DocumentChunkWithScore.t :=
  id <- lift (getitem row "id") ;;
  text <- lift (getitem row "content") ;;
  similarity <- lift (getitem row "similarity") ;;
  score <- lift (float E similarity) ;;
  source <- lift (getitem row "source") ;;
  source_id <- lift (getitem row "source_id") ;;
  document_id <- lift (getitem row "document_id") ;;
  url <- lift (getitem row "url") ;;
  created_at <- lift (getitem row "created_at") ;;
  author <- lift (getitem row "author") ;;
  metadata <- lift (new_DocumentChunkMetadata E
                      [("source", source); ("source_id", source_id);
                       ("document_id", document_id); ("url", url);
                       ("created_at", created_at); ("author", author)]) ;;
  lift (new_DocumentChunkWithScore E id text score metadata).

(** The body of [for query in queries] in [_query]. *)
Definition query_one (query : QueryWithEmbedding.t) : M QueryResult.t :=
  let params := query_params query in
  log INFO [Obj (PDict params)] ;;;
  try_except
    (data <- PGClient.rpc "match_page_sections" params ;;
     results <- for_collect data row_to_chunk ;;
     ret (QueryResult.mk (QueryWithEmbedding.query query) results))
    (fun e =>
       log ERROR_ [Exn e] ;;;
       ret (QueryResult.mk (QueryWithEmbedding.query query) [])).

Definition _query (queries : list QueryWithEmbedding.t) : M (list QueryResult.t) :=
  for_collect queries query_one.

Definition delete (ids : option (list string))
    (filter : option DocumentMetadataFilter.t) (delete_all : option bool) : M bool :=
  if truthy_bool delete_all then
    try_except
      (PGClient.delete_like "documents" "document_id" "%" ;;; ret true)
      (fun _ => ret false)
  else
    match ids with
    | Some (i :: l) =>
        try_except
          (PGClient.delete_in "documents" "document_id" (i :: l) ;;; ret true)
          (fun _ => ret false)
    | _ =>
        match filter with
        | Some f =>
            try_except
              (PGClient.delete_by_filters "documents" f ;;; ret true)
              (fun _ => ret false)
        | None => ret true
        end
    end.

(** [create_command] assigns [command.id] on the object it is given; the
    mutated object is returned along with the id, for the caller that keeps
    a reference to it. *)
Definition create_command (command : CommandWithContent.t)
    : M (string * CommandWithContent.t) :=
  fun w0 =>
    let id := uuid4 E (trace w0) in
    let command := CommandWithContent.set_id command (Some id) in
    (log INFO [Text "got to create command in pgvector data store. Id: "; Text id] ;;;
     log INFO [Text "Command: "; Obj (PDict (CommandWithContent.dict command))] ;;;
     PGClient.upsert "commands" (CommandWithContent.dict command) ;;;
     ret (id, command)) w0.

Definition get_command (command_id : string) : M (option Command.t) :=
  let fields := Command.fields in
  data <- PGClient.get_by_id "commands" command_id (Some fields) ;;
  match data with
  | row :: _ => command <- lift (new_Command E row) ;; ret (Some command)
  | [] => ret None
  end.

(** The only caller passes [request.command], a [CommandWithContent], whose
    [.dict()] is what is sent. *)
Definition update_command (command : CommandWithContent.t) : M bool :=
  log INFO [Text "Attempting to update command in pgvector data store. Command: ";
            Obj (PDict (CommandWithContent.dict command))] ;;;
  PGClient.update "commands" (CommandWithContent.dict command) ;;;
  ret true.

End WithClient.
End PgVectorDataStore.

(** ** datastore/providers/supabase_datastore.py: [SupabaseClient] *)

Module SupabaseClient.
Section WithEnv.
Context (E : Env).

(** [builder.execute()]: the backend answers as the environment says, time
    passes, and the request is recorded; the result is [response.data]. *)
Definition exec (r : request) : M (list pyval) :=
  fun w => (execute E (trace w) r, emit E (Execute r) w).

Fixpoint _convert_object_to_serializable_json (data : pyval) : pyval :=
  match data with
  | PDict d =>
      PDict ((fix items (d : pydict) : pydict :=
                match d with
                | [] => []
                | (k, v) :: rest =>
                    if is_None v then items rest
                    else (k, _convert_object_to_serializable_json v) :: items rest
                end) d)
  | PList l => PList (map _convert_object_to_serializable_json l)
  | PEnum _ value => PStr value
  | _ => data
  end.

(** The same function on a value known to be a dict. *)
Definition convert_dict (json : pydict) : pydict :=
  match _convert_object_to_serializable_json (PDict json) with
  | PDict d => d
  | _ => []
  end.

(** [if "created_at" in json: json["created_at"] = json["created_at"][0].isoformat()] *)
Definition created_at_isoformat (json : pydict) : Res pydict :=
  match dict_get json "created_at" with
  | Some created_at =>
      match getitem0 created_at with
      | Ok first =>
          match isoformat_of E first with
          | Ok iso => Ok (dict_set json "created_at" iso)
          | Raise e => Raise e
          end
      | Raise e => Raise e
      end
  | None => Ok json
  end.

(** [logger.error("Got exception in supabase_datastore.py: " + str(e), e)]:
    a log call that is given an argument formats its message with it
    ([message.format(e)]), so that braces in [str(e)] are read as fields;
    what the formatting raises comes out of the call, inside the [except]
    block. *)
Definition log_exception (e : exn) : M unit :=
  let message := ("Got exception in supabase_datastore.py: " ++ str E e)%string in
  match format E message e with
  | Ok text => log ERROR_ [Text text]
  | Raise e' => raise e'
  end.

Definition upsert (table : string) (json : pydict) : M unit :=
  log INFO [Text "Got to upsert in supabase_datastore.py"] ;;;
  log INFO [Text "Json before conversion: "; Obj (PDict json)] ;;;
  let json := convert_dict json in
  log INFO [Text "Json after conversion: "; Obj (PDict json)] ;;;
  json <- lift (created_at_isoformat json) ;;
  try_except
    (exec (Upsert table json) ;;; ret tt)
    log_exception.

Definition update (table : string) (json : pydict) : M unit :=
  log INFO [Text "Command before serializing: "; Obj (PDict json)] ;;;
  let json := convert_dict json in
  log INFO [Text "Command after serializing: "; Obj (PDict json)] ;;;
  id <- lift (getitem (PDict json) "id") ;;
  exec (Update table json [Eq_ "id" id]) ;;;
  ret tt.

Definition get_by_id (table : string) (id : string) (columns : option (list string))
    : M (list pyval) :=
  let columns := match columns with None => ["*"] | Some columns => columns end in
  exec (Select table (String.concat "," columns) [Eq_ "id" (PStr id)]).

Definition rpc (function_name : string) (params : pydict) : M (list pyval) :=
  params <- match dict_get params "in_start_date" with
            | Some d => iso <- lift (isoformat_of E d) ;;
                        ret (dict_set params "in_start_date" iso)
            | None => ret params
            end ;;
  params <- match dict_get params "in_end_date" with
            | Some d => iso <- lift (isoformat_of E d) ;;
                        ret (dict_set params "in_end_date" iso)
            | None => ret params
            end ;;
  exec (Rpc function_name params).

Definition delete_like (table column pattern : string) : M unit :=
  exec (Delete table [Like column pattern]) ;;; ret tt.

Definition delete_in (table column : string) (ids : list string) : M unit :=
  exec (Delete table [In_ column ids]) ;;; ret tt.

(** [if field: builder = builder.eq(column, field)] *)
Definition eq_if_truthy (builder : list cond) (field : option string) (column : string)
    : list cond :=
  match field with
  | Some v => if truthy_str (Some v) then builder ++ [Eq_ column (PStr v)] else builder
  | None => builder
  end.

(** [if field: builder = builder.op(column, field[0].isoformat())].  The
    date fields of a filter are strings: [field[0]] is the one-character
    string at the head of a truthy field, on which [.isoformat()] is looked
    up. *)
Definition date_if_truthy (builder : list cond) (field : option string)
    (op : string -> pyval -> cond) (column : string) : Res (list cond) :=
  match field with
  | Some v =>
      if truthy_str (Some v) then
        match getitem0 (PStr v) with
        | Ok first =>
            match isoformat_of E first with
            | Ok iso => Ok (builder ++ [op column iso])
            | Raise e => Raise e
            end
        | Raise e => Raise e
        end
      else Ok builder
  | None => Ok builder
  end.

(** The filters [delete_by_filters] appends to the builder, in order. *)
Definition filter_conds (filter : DocumentMetadataFilter.t) : Res (list cond) :=
  let builder := [] in
  let builder :=
    eq_if_truthy builder (DocumentMetadataFilter.document_id filter) "document_id" in
  let builder :=
    match DocumentMetadataFilter.source filter with
    | Some s => builder ++ [Eq_ "source" (of_Source s)]
    | None => builder
    end in
  let builder :=
    eq_if_truthy builder (DocumentMetadataFilter.source_id filter) "source_id" in
  let builder :=
    eq_if_truthy builder (DocumentMetadataFilter.author filter) "author" in
  match date_if_truthy builder (DocumentMetadataFilter.start_date filter) Gte "created_at" with
  | Ok builder =>
      date_if_truthy builder (DocumentMetadataFilter.end_date filter) Lte "created_at"
  | Raise e => Raise e
  end.

Definition delete_by_filters (table : string) (filter : DocumentMetadataFilter.t) : M unit :=
  filters <- lift (filter_conds filter) ;;
  exec (Delete table filters) ;;; ret tt.

#[export] Instance client : PGClient.t :=
  PGClient.mk upsert update rpc delete_like delete_in delete_by_filters get_by_id.

End WithEnv.
End SupabaseClient.

(** ** local_server/main.py *)

Module Main.
Section WithEnv.
Context (E : Env).

(** [datastore = await get_datastore()]: the factory knows one datastore,
    [SupabaseDataStore], a [PgVectorDataStore] on a [SupabaseClient]. *)
Definition datastore : PGClient.t := SupabaseClient.client E.

(** [time.time()] *)
Definition time : M Z := fun w => (Ok (now w), w).

(** [await asyncio.sleep(seconds)] *)
Definition sleep (seconds : Z) : M unit :=
  fun w => (Ok tt, emit E (Sleep seconds) w).

Definition DEADLINE : Z := 20.
Definition INTERVAL : Z := 5.
Definition TIMEOUT_MESSAGE : string :=
  "Command was abandoned due to timeout. Check Obsidian connection".

(** One iteration of [while True]: [Some response] when the iteration
    returns, [None] when it reaches the end of the body and the loop goes
    round again.  [request_command] is [request.command], the object
    [datastore.create_command] has assigned the id on. *)
Definition poll_once (id : string) (request_command : CommandWithContent.t)
    (start_time : Z) : M (option CommandResponse.t) :=
  log INFO [Text "Polling for command status..."] ;;;
  command <- PgVectorDataStore.get_command E (client := datastore) id ;;
  match command with
  | None => raise (AttributeError "status")
  | Some command =>
      match Command.status command with
      | COMPLETED => ret (Some (CommandResponse.mk id None))
      | ERROR => ret (Some (CommandResponse.mk id (Command.errors command)))
      | _ =>
          t <- time ;;
          if DEADLINE <? t - start_time then
            let request_command := CommandWithContent.set_status request_command ABANDONED in
            PgVectorDataStore.update_command (client := datastore) request_command ;;;
            ret (Some (CommandResponse.mk id (Some TIMEOUT_MESSAGE)))
          else
            sleep INTERVAL ;;;
            ret None
      end
  end.

(** The loop, run for at most [fuel] iterations; [None] means that it is
    still running after them. *)
Fixpoint poll (fuel : nat) (id : string) (request_command : CommandWithContent.t)
    (start_time : Z) (w : World) : option (Res CommandResponse.t * World) :=
  match fuel with
  | O => None
  | S fuel =>
      match poll_once id request_command start_time w with
      | (Ok (Some response), w') => Some (Ok response, w')
      | (Ok None, w') => poll fuel id request_command start_time w'
      | (Raise e, w') => Some (Raise e, w')
      end
  end.

(** [except Exception as e:] of the endpoint. *)
Definition on_exception (e : exn) : M CommandResponse.t :=
  log ERROR_ [Exn e] ;;;
  log ERROR_ [Cause e] ;;;
  raise (HTTPException 500 "Internal Service Error").

(** The endpoint [POST /commands], on [request.command]. *)
Definition create_command (fuel : nat) (request_command : CommandWithContent.t)
    (w : World) : option (Res CommandResponse.t * World) :=
  let '(_, w) :=
    log INFO [Text "Received Command: "; Obj (PDict (CommandWithContent.dict request_command))] w in
  let body :=
    match PgVectorDataStore.create_command E (client := datastore) request_command w with
    | (Ok (id, request_command), w') =>
        let start_time := now w' in
        poll fuel id request_command start_time w'
    | (Raise e, w') => Some (Raise e, w')
    end in
  match body with
  | Some (Ok response, w') => Some (Ok response, w')
  | Some (Raise e, w') => Some (on_exception e w')
  | None => None
  end.

End WithEnv.
End Main.

(** ** datastore/factory.py, and the start-up part of supabase_datastore.py *)

Module Factory.

(** [os.environ.get] *)
Definition environ : Type := string -> option string.

(** What start-up raises: a failed [assert] with its message (empty when the
    statement has none), or the [ValueError] of the factory. *)
Inductive StartupError :=
| AssertionError (message : string)
| UnsupportedDatastore (message : string).

Inductive Startup (A : Type) :=
| Started (a : A)
| Failed (e : StartupError).
Arguments Started {A} a.
Arguments Failed {A} e.

(** The module-level variables of supabase_datastore.py. *)
Record Settings := mkSettings {
  SUPABASE_URL : string;
  SUPABASE_ANON_KEY : option string;
  SUPABASE_SERVICE_ROLE_KEY : option string }.

(** The arguments the Supabase [Client] is constructed with; what the
    constructor of the library does with them is not part of the model. *)
Record Client := mkClient {
  supabase_url : string;
  supabase_key : option string }.

(** Importing supabase_datastore.py: the environment is read and the two
    [assert] statements are run. *)
Definition import_supabase_datastore (env : environ) : Startup Settings :=
  match env "SUPABASE_URL" with
  | None => Failed (AssertionError "SUPABASE_URL is not set")
  | Some url =>
      match env "SUPABASE_ANON_KEY", env "SUPABASE_SERVICE_ROLE_KEY" with
      | None, None =>
          Failed (AssertionError
                    "SUPABASE_ANON_KEY or SUPABASE_SERVICE_ROLE_KEY must be set")
      | anon, service => Started (mkSettings url anon service)
      end
  end.

(** [SupabaseClient.__init__] *)
Definition SupabaseClient_init (s : Settings) : Client :=
  if negb (truthy_str (SUPABASE_SERVICE_ROLE_KEY s))
  then mkClient (SUPABASE_URL s) (SUPABASE_ANON_KEY s)
  else mkClient (SUPABASE_URL s) (SUPABASE_SERVICE_ROLE_KEY s).

(** [get_datastore]: the datastore is a [SupabaseDataStore], given here by
    the arguments its client is constructed with. *)
Definition get_datastore (env : environ) : Startup Client :=
  match env "DATASTORE" with
  | None => Failed (AssertionError "")
  | Some datastore =>
      if String.eqb datastore "supabase" then
        match import_supabase_datastore env with
        | Started settings => Started (SupabaseClient_init settings)
        | Failed e => Failed e
        end
      else
        Failed (UnsupportedDatastore
                  ("Unsupported vector database: " ++ datastore ++ ". "
                   ++ "Try one of the following: llama, pinecone, weaviate, milvus, zilliz, redis, or qdrant")%string)
  end.

End Factory.

(** ** Definitions used to state the properties *)

(** The three delete modes of the specification and, following its words,
    the mode selected by the precedence deleteAll > ids > filter. *)
Inductive delete_mode :=
| DeleteAll
| DeleteByIds (ids : list string)
| DeleteByFilter (filter : DocumentMetadataFilter.t).

Definition selected_mode (ids : option (list string))
    (filter : option DocumentMetadataFilter.t) (delete_all : option bool)
    : option delete_mode :=
  if truthy_bool delete_all then Some DeleteAll
  else if truthy_list ids then
    match ids with Some l => Some (DeleteByIds l) | None => None end
  else
    match filter with Some f => Some (DeleteByFilter f) | None => None end.

(** The client call a delete mode stands for. *)
Definition run_mode {client : PGClient.t} (m : delete_mode) : M unit :=
  match m with
  | DeleteAll => PGClient.delete_like "documents" "document_id" "%"
  | DeleteByIds ids => PGClient.delete_in "documents" "document_id" ids
  | DeleteByFilter f => PGClient.delete_by_filters "documents" f
  end.

(** The delete requests among the events of a trace. *)
Definition delete_requests (tr : list event) : list request :=
  flat_map (fun ev => match ev with Execute (Delete t c) => [Delete t c] | _ => [] end) tr.

(** The requests that write to the backend, in order. *)
Definition writes (tr : list event) : list request :=
  flat_map (fun ev =>
              match ev with
              | Execute (Upsert t j) => [Upsert t j]
              | Execute (Update t j c) => [Update t j c]
              | Execute (Delete t c) => [Delete t c]
              | _ => []
              end) tr.

Definition updates (tr : list event) : list request :=
  flat_map (fun ev => match ev with Execute (Update t j c) => [Update t j c] | _ => [] end) tr.

Definition has_key (d : pydict) (k : string) : bool := dict_mem d k.

(** No key occurs twice in a dict. *)
Fixpoint unique_keys (d : pydict) : bool :=
  match d with
  | [] => true
  | (k, _) :: rest => negb (dict_mem rest k) && unique_keys rest
  end.

(** The names of the parameters of the similarity procedure. *)
Definition parameter_names : list string :=
  ["in_embedding"; "in_match_count"; "in_document_id"; "in_source";
   "in_source_id"; "in_author"; "in_start_date"; "in_end_date"].

Definition known_keys (d : pydict) : bool :=
  forallb (fun kv => existsb (String.eqb (fst kv)) parameter_names) d.

(** The value a field contributes when it is truthy, nothing otherwise. *)
Definition when_truthy (field : option string) (f : string -> pyval) : option pyval :=
  if truthy_str field then option_map f field else None.

(** The equality predicates [delete_by_filters] is expected to build from
    the fields that are truthy, in the order of the source. *)
Definition equality_conds (filter : DocumentMetadataFilter.t) : list cond :=
  (if truthy_str (DocumentMetadataFilter.document_id filter)
   then [Eq_ "document_id" (of_opt_str (DocumentMetadataFilter.document_id filter))] else [])
  ++ match DocumentMetadataFilter.source filter with
     | Some s => [Eq_ "source" (of_Source s)]
     | None => []
     end
  ++ (if truthy_str (DocumentMetadataFilter.source_id filter)
      then [Eq_ "source_id" (of_opt_str (DocumentMetadataFilter.source_id filter))] else [])
  ++ (if truthy_str (DocumentMetadataFilter.author filter)
      then [Eq_ "author" (of_opt_str (DocumentMetadataFilter.author filter))] else []).

(** The parameters of a query without its filter. *)
Definition base_params (query : QueryWithEmbedding.t) : pydict :=
  let params := [("in_embedding", PList (map PFloat (QueryWithEmbedding.embedding query)))] in
  match QueryWithEmbedding.top_k query with
  | Some k => if truthy_int (Some k) then dict_set params "in_match_count" (PInt k) else params
  | None => params
  end.

(** No enum member and no None-valued dict entry is left, as far as dicts
    and lists nest. *)
Fixpoint flattened (v : pyval) : bool :=
  match v with
  | PEnum _ _ => false
  | PList l => forallb flattened l
  | PDict d => forallb (fun kv => negb (is_None (snd kv)) && flattened (snd kv)) d
  | _ => true
  end.

(** No timestamp object is left, as far as dicts, lists and tuples nest. *)
Fixpoint no_timestamp (v : pyval) : bool :=
  match v with
  | PDatetime _ => false
  | PList l | PTuple l => forallb no_timestamp l
  | PDict d => forallb (fun kv => no_timestamp (snd kv)) d
  | _ => true
  end.

(** The events of several effects in a row, replayed on a world. *)
Definition replay (E : Env) (w : World) (evs : list event) : World :=
  fold_left (fun w ev => emit E ev w) evs w.

(** The request by which [get_command] fetches the bare command fields. *)
Definition fetch (id : string) : request :=
  Select "commands" "id,status,errors,created_at,updated_at" [Eq_ "id" (PStr id)].

(** The events of one poll, of one round of the loop (a poll and the sleep
    after it) and of [n] rounds. *)
Definition poll_events (id : string) : list event :=
  [Log INFO [Text "Polling for command status..."]; Execute (fetch id)].

Definition round_events (id : string) : list event :=
  poll_events id ++ [Sleep 5].

Fixpoint rounds (n : nat) (id : string) : list event :=
  match n with
  | O => []
  | S n => round_events id ++ rounds n id
  end.

(** The events of the creation of a command that the backend accepts;
    [created] is the command with its id assigned. *)
Definition creation_events (command created : CommandWithContent.t) (id : string)
    : list event :=
  [Log INFO [Text "Received Command: "; Obj (PDict (CommandWithContent.dict command))];
   Log INFO [Text "got to create command in pgvector data store. Id: "; Text id];
   Log INFO [Text "Command: "; Obj (PDict (CommandWithContent.dict created))];
   Log INFO [Text "Got to upsert in supabase_datastore.py"];
   Log INFO [Text "Json before conversion: "; Obj (PDict (CommandWithContent.dict created))];
   Log INFO [Text "Json after conversion: ";
             Obj (PDict (SupabaseClient.convert_dict (CommandWithContent.dict created)))];
   Execute (Upsert "commands" (SupabaseClient.convert_dict (CommandWithContent.dict created)))].

(** The one update by which a command is abandoned. *)
Definition abandon_update (created : CommandWithContent.t) (id : string) : request :=
  Update "commands"
    (SupabaseClient.convert_dict
       (CommandWithContent.dict (CommandWithContent.set_status created ABANDONED)))
    [Eq_ "id" (PStr id)].

Definition abandon_events (created : CommandWithContent.t) (id : string) : list event :=
  let abandoned := CommandWithContent.set_status created ABANDONED in
  [Log INFO [Text "Attempting to update command in pgvector data store. Command: ";
             Obj (PDict (CommandWithContent.dict abandoned))];
   Log INFO [Text "Command before serializing: ";
             Obj (PDict (CommandWithContent.dict abandoned))];
   Log INFO [Text "Command after serializing: ";
             Obj (PDict (SupabaseClient.convert_dict (CommandWithContent.dict abandoned)))];
   Execute (abandon_update created id)].

(** All the events of a run that creates a command, polls [n] rounds, polls
    once more and abandons the command. *)
Definition abandoned_run (command created : CommandWithContent.t) (id : string) (n : nat)
    : list event :=
  creation_events command created id
  ++ rounds n id ++ poll_events id ++ abandon_events created id.

(** The error line of the Supabase [upsert] can be written for every error
    the backend raises: formatting the message that ends in [str(e)] with
    the exception as argument gives a text.  It is so when [str(e)] holds no
    brace. *)
Definition errors_loggable (E : Env) : Prop :=
  forall h r e,
    execute E h r = Raise e ->
    exists text,
      format E ("Got exception in supabase_datastore.py: " ++ str E e)%string e
      = Ok text.

(** A concrete environment for examples: a clock on which every effect takes
    [lag] time units and a backend given by [backend]; a row is accepted as a
    [Command] when its [status] names a member. *)
Definition parse_status (v : option pyval) : Res CommandStatus :=
  match v with
  | None => Ok NEW
  | Some (PStr "NEW") => Ok NEW
  | Some (PStr "PROCESSING") => Ok PROCESSING
  | Some (PStr "COMPLETED") => Ok COMPLETED
  | Some (PStr "ABANDONED") => Ok ABANDONED
  | Some (PStr "ERROR") => Ok ERROR
  | _ => Raise ValidationError
  end.

Definition opt_str_of (v : option pyval) : option string :=
  match v with Some (PStr s) => Some s | _ => None end.

Definition example_new_Command (row : pyval) : Res Command.t :=
  match row with
  | PDict d =>
      match parse_status (dict_get d "status") with
      | Ok s => Ok (Command.mk (opt_str_of (dict_get d "id")) s
                      (opt_str_of (dict_get d "errors"))
                      (opt_str_of (dict_get d "created_at"))
                      (opt_str_of (dict_get d "updated_at")))
      | Raise e => Raise e
      end
  | _ => Raise TypeError
  end.

Definition example_float (v : pyval) : Res pyfloat :=
  match v with
  | PFloat f => Ok f
  | _ => Raise TypeError
  end.

Definition example_new_metadata (d : pydict) : Res DocumentChunkMetadata.t :=
  Ok (DocumentChunkMetadata.mk None
        (opt_str_of (dict_get d "source_id")) (opt_str_of (dict_get d "url"))
        (opt_str_of (dict_get d "created_at")) (opt_str_of (dict_get d "author"))
        (opt_str_of (dict_get d "document_id"))).

Definition example_new_chunk (id text : pyval) (score : pyfloat)
    (metadata : DocumentChunkMetadata.t) : Res DocumentChunkWithScore.t :=
  match text with
  | PStr s => Ok (DocumentChunkWithScore.mk (opt_str_of (Some id)) s metadata None score)
  | _ => Raise ValidationError
  end.

(** [str(e)] for the exceptions of the examples: a backend error prints as
    its message. *)
Definition example_str (e : exn) : string :=
  match e with
  | BackendError msg => msg
  | KeyError key => ("'" ++ key ++ "'")%string
  | AttributeError attr => ("object has no attribute '" ++ attr ++ "'")%string
  | IndexError => "index out of range"
  | TypeError => "unsupported type"
  | ValueError => "invalid value"
  | ValidationError => "validation error"
  | HTTPException _ detail => detail
  end.

(** The text of a format field: what stands between an opening brace and
    the closing brace after it. *)
Fixpoint field_name (s : string) : string :=
  match s with
  | EmptyString => EmptyString
  | String c rest =>
      if Ascii.eqb c "}"%char then EmptyString else String c (field_name rest)
  end.

Fixpoint first_field (s : string) : option string :=
  match s with
  | EmptyString => None
  | String c rest =>
      if Ascii.eqb c "{"%char then Some (field_name rest) else first_field rest
  end.

(** [message.format(e)] for the messages of the examples: a message without
    an opening brace is the text itself; an opening brace starts a field,
    and the fields of the examples carry a name, which is looked up among
    the keyword arguments, of which there are none. *)
Definition example_format (message : string) (e : exn) : Res string :=
  match first_field message with
  | None => Ok message
  | Some name => Raise (KeyError name)
  end.

Definition example_env (backend : list event -> request -> Res (list pyval)) (lag : Z) : Env :=
  mkEnv (fun _ => 0) (fun _ => "1970-01-01T00:00:00") example_float
        example_new_Command example_new_metadata example_new_chunk
        example_str example_format
        (fun _ => "c1") backend (fun _ => lag).

Definition w0 : World := mkWorld 0 [].

(** A backend that is down: every request raises. *)
Definition backend_down : list event -> request -> Res (list pyval) :=
  fun _ _ => Raise (BackendError "connection refused").

(** A backend that is down and whose error text holds a brace pair. *)
Definition backend_braces : list event -> request -> Res (list pyval) :=
  fun _ _ => Raise (BackendError "{boom}").

(** A backend that accepts every request and holds no rows. *)
Definition backend_empty : list event -> request -> Res (list pyval) :=
  fun _ _ => Ok [].

(** A backend on which every command stays in the given status. *)
Definition backend_status (status : string) (errors : pyval)
    : list event -> request -> Res (list pyval) :=
  fun _ r =>
    match r with
    | Select "commands" _ [Eq_ "id" id] =>
        Ok [PDict [("id", id); ("status", PStr status); ("errors", errors);
                   ("created_at", PNone); ("updated_at", PNone)]]
    | _ => Ok []
    end.

(** A backend on which every command stays NEW and every update fails. *)
Definition backend_update_fails : list event -> request -> Res (list pyval) :=
  fun h r =>
    match r with
    | Update _ _ _ => Raise (BackendError "connection reset")
    | _ => backend_status "NEW" PNone h r
    end.

(** A filter with no field set: [DocumentMetadataFilter()]. *)
Definition empty_filter : DocumentMetadataFilter.t :=
  DocumentMetadataFilter.mk None None None None None None.

Definition example_command : CommandWithContent.t :=
  CommandWithContent.mk None NEW None None None CREATE_NOTE
    (CommandContent.mk "a note" (DocumentMetadata.mk None None None None None)).



(** A backend that fails the similarity call of every query that filters
    on the author, and answers the others with one row. *)
Definition example_row : pyval :=
  PDict [("id", PStr "A"); ("content", PStr "some text");
         ("similarity", PFloat (Float64 1)); ("source", PNone);
         ("source_id", PNone); ("document_id", PStr "doc1"); ("url", PNone);
         ("created_at", PNone); ("author", PNone)].

Definition backend_flaky : list event -> request -> Res (list pyval) :=
  fun _ r =>
    match r with
    | Rpc _ params =>
        if dict_mem params "in_author" then Raise (BackendError "statement timeout")
        else Ok [example_row]
    | _ => Ok []
    end.

Definition example_hit : DocumentChunkWithScore.t :=
  DocumentChunkWithScore.mk (Some "A") "some text"
    (DocumentChunkMetadata.mk None None None None None (Some "doc1")) None (Float64 1).

Definition example_query (text : string) (author : option string) : QueryWithEmbedding.t :=
  QueryWithEmbedding.mk text
    (Some (DocumentMetadataFilter.mk (Some "doc1") None None author None None))
    (Some 3) [Float64 0].

Definition example_chunk (id : string) : DocumentChunk.t :=
  DocumentChunk.mk (Some id) "some text"
    (DocumentChunkMetadata.mk (Some FILE) None None (Some "2023-05-01") None (Some "doc1"))
    None.

(** A backend that answers a similarity call with a good row and a row
    that lacks columns. *)
Definition backend_two_rows : list event -> request -> Res (list pyval) :=
  fun _ r =>
    match r with
    | Rpc _ _ => Ok [example_row; PDict [("id", PStr "B")]]
    | _ => Ok []
    end.

(** A client that does not catch what the backend raises on a write. *)
Definition raising_client (E : Env) : PGClient.t :=
  PGClient.mk
    (fun table json => SupabaseClient.exec E (Upsert table json) ;;; ret tt)
    (SupabaseClient.update E) (SupabaseClient.rpc E) (SupabaseClient.delete_like E)
    (SupabaseClient.delete_in E) (SupabaseClient.delete_by_filters E)
    (SupabaseClient.get_by_id E).

(** All the requests executed, and the similarity calls among them. *)
Definition executed (tr : list event) : list request :=
  flat_map (fun ev => match ev with Execute r => [r] | _ => [] end) tr.

Definition rpcs (tr : list event) : list request :=
  flat_map (fun ev => match ev with Execute (Rpc f p) => [Rpc f p] | _ => [] end) tr.

(** A timestamp parameter as the Supabase client sends it. *)
Definition iso_param (E : Env) (params : pydict) (key : string) : pydict :=
  match dict_get params key with
  | Some (PDatetime ts) => dict_set params key (PStr (isoformat E ts))
  | _ => params
  end.

(** The parameters of the similarity call as they reach the backend. *)
Definition sent_params (E : Env) (query : QueryWithEmbedding.t) : pydict :=
  iso_param E (iso_param E (PgVectorDataStore.query_params E query) "in_start_date")
    "in_end_date".

(** The chunks of a batch with their document ids, in the order of the loops. *)
Definition chunk_list (chunks : list (string * list DocumentChunk.t))
    : list (string * DocumentChunk.t) :=
  flat_map (fun '(document_id, document_chunks) =>
              map (fun chunk => (document_id, chunk)) document_chunks) chunks.

(** The row of a chunk as it reaches the backend. *)
Definition chunk_row (E : Env) (document_id : string) (chunk : DocumentChunk.t) : pydict :=
  match SupabaseClient.created_at_isoformat E
          (SupabaseClient.convert_dict (PgVectorDataStore.chunk_json E document_id chunk)) with
  | Ok row => row
  | Raise _ => []
  end.

(** The dict entries whose value is not None. *)
Definition not_None_items (d : pydict) : pydict :=
  filter (fun kv => negb (is_None (snd kv))) d.

(** An environment of the process, for examples. *)
Definition example_environ (service : option string) : Factory.environ :=
  fun name =>
    if String.eqb name "DATASTORE" then Some "supabase"
    else if String.eqb name "SUPABASE_URL" then Some "https://project.supabase.co"
    else if String.eqb name "SUPABASE_SERVICE_ROLE_KEY" then service
    else None.

(** A computation that leaves the world as it is. *)
Definition pure_of {A} (m : M A) : Prop := forall w, snd (m w) = w.

(** * Properties *)

(** ** Equations of the monad *)

Lemma bind_Ok {A B} (m : M A) (k : A -> M B) w a w' :
  m w = (Ok a, w') -> bind m k w = k a w'.
Proof. intros H; unfold bind; now rewrite H. Qed.

Lemma bind_Raise {A B} (m : M A) (k : A -> M B) w e w' :
  m w = (Raise e, w') -> bind m k w = (Raise e, w').
Proof. intros H; unfold bind; now rewrite H. Qed.

Lemma bind_inv_Ok {A B} (m : M A) (k : A -> M B) w b w' :
  bind m k w = (Ok b, w') -> exists a w1, m w = (Ok a, w1) /\ k a w1 = (Ok b, w').
Proof.
  unfold bind. destruct (m w) as [[a|e] w1]; [|discriminate].
  intros H. now exists a, w1.
Qed.

Lemma try_except_Ok {A} (m : M A) h w a w' :
  m w = (Ok a, w') -> try_except m h w = (Ok a, w').
Proof. intros H; unfold try_except; now rewrite H. Qed.

Lemma try_except_Raise {A} (m : M A) h w e w' :
  m w = (Raise e, w') -> try_except m h w = h e w'.
Proof. intros H; unfold try_except; now rewrite H. Qed.

(** ** Delete *)

Section DeleteFacts.
Context {client : PGClient.t}.

Lemma attempt_raises (call : M unit) w e w' :
  call w = (Raise e, w') ->
  try_except (call ;;; ret true) (fun _ => ret false) w = (Ok false, w').
Proof.
  intros H. apply (bind_Raise _ (fun _ => ret true)) in H.
  now rewrite (try_except_Raise _ _ _ _ _ H).
Qed.

Lemma attempt_returns (call : M unit) w u w' :
  call w = (Ok u, w') ->
  try_except (call ;;; ret true) (fun _ => ret false) w = (Ok true, w').
Proof.
  intros H. apply (bind_Ok _ (fun _ => ret true)) in H.
  unfold try_except. now rewrite H.
Qed.

Lemma delete_selected ids filter delete_all m :
  selected_mode ids filter delete_all = Some m ->
  PgVectorDataStore.delete ids filter delete_all =
  try_except (run_mode m ;;; ret true) (fun _ => ret false).
Proof.
  unfold selected_mode, PgVectorDataStore.delete.
  destruct (truthy_bool delete_all).
  - intros [= <-]. reflexivity.
  - destruct ids as [[|i l]|]; simpl.
    + destruct filter; intros [= <-]; reflexivity.
    + intros [= <-]. reflexivity.
    + destruct filter; intros [= <-]; reflexivity.
Qed.

(** C5, as amended: the call made by [delete] is the one of the mode that the
    precedence deleteAll > ids > filter selects among the arguments that are
    set (a true [delete_all], a non-empty [ids], a given [filter]); the
    arguments of lower precedence play no part; when none is set no mode runs
    at all.  With [delete_all] the call is the wildcard pattern delete. *)
Theorem delete_runs_selected_mode ids filter delete_all w :
  PgVectorDataStore.delete ids filter delete_all w =
  match selected_mode ids filter delete_all with
  | Some m => let '(r, w') := run_mode m w in (Ok (is_ok r), w')
  | None => (Ok true, w)
  end
  /\ (truthy_bool delete_all = true ->
      selected_mode ids filter delete_all = Some DeleteAll)
  /\ (truthy_bool delete_all = false -> forall i l, ids = Some (i :: l) ->
      selected_mode ids filter delete_all = Some (DeleteByIds (i :: l)))
  /\ (truthy_bool delete_all = false -> truthy_list ids = false ->
      forall f, filter = Some f ->
      selected_mode ids filter delete_all = Some (DeleteByFilter f)).
Proof.
  split; [|repeat split].
  - destruct (selected_mode ids filter delete_all) as [m|] eqn:Hm.
    + rewrite (delete_selected _ _ _ _ Hm).
      destruct (run_mode m w) as [[u|e] w'] eqn:Hr.
      * now rewrite (attempt_returns _ _ _ _ Hr).
      * now rewrite (attempt_raises _ _ _ _ Hr).
    + unfold selected_mode in Hm. unfold PgVectorDataStore.delete.
      destruct (truthy_bool delete_all); [discriminate|].
      destruct ids as [[|i l]|]; simpl in Hm;
        try discriminate; destruct filter; try discriminate; reflexivity.
  - intros H. unfold selected_mode. now rewrite H.
  - intros H i l ->. unfold selected_mode. now rewrite H.
  - intros H Hi f ->. unfold selected_mode. now rewrite H, Hi.
Qed.

(** C6: when the client call of the selected delete mode raises, [delete]
    returns [False] and the exception does not propagate; when the call
    returns, [delete] returns [True]. *)
Theorem delete_false_on_exception ids filter delete_all m w :
  selected_mode ids filter delete_all = Some m ->
  (forall e w', run_mode m w = (Raise e, w') ->
     PgVectorDataStore.delete ids filter delete_all w = (Ok false, w'))
  /\ (forall u w', run_mode m w = (Ok u, w') ->
     PgVectorDataStore.delete ids filter delete_all w = (Ok true, w')).
Proof.
  intros Hm. rewrite (delete_selected _ _ _ _ Hm). split.
  - intros e w' H. now apply attempt_raises with e.
  - intros u w' H. now apply attempt_returns with u.
Qed.

(** C9, as amended: with [delete_all] None or False, [ids] None or empty
    and the filter None, [delete] calls nothing on the client (the world is
    left as it was) and returns [True].  A filter object counts as given
    even when none of its fields is set. *)
Theorem delete_nothing_returns_true ids delete_all w :
  truthy_bool delete_all = false ->
  truthy_list ids = false ->
  PgVectorDataStore.delete ids None delete_all w = (Ok true, w).
Proof.
  intros Ha Hi. unfold PgVectorDataStore.delete. rewrite Ha.
  destruct ids as [[|i l]|]; try reflexivity. discriminate.
Qed.

End DeleteFacts.

(** ** Filter translation *)

Lemma dict_get_set d k v k' :
  dict_get (dict_set d k v) k' = if String.eqb k k' then Some v else dict_get d k'.
Proof.
  induction d as [|[k0 v0] t IH]; simpl.
  - reflexivity.
  - destruct (String.eqb k0 k) eqn:Hk; simpl.
    + apply String.eqb_eq in Hk. subst k0. now destruct (String.eqb k k').
    + rewrite IH. destruct (String.eqb k0 k') eqn:Hk'; [|reflexivity].
      apply String.eqb_eq in Hk'. subst k0.
      rewrite String.eqb_sym in Hk. now rewrite Hk.
Qed.

Lemma unique_keys_set d k v : unique_keys (dict_set d k v) = unique_keys d.
Proof.
  induction d as [|[k0 v0] t IH]; simpl.
  - reflexivity.
  - destruct (String.eqb k0 k) eqn:Hk; simpl.
    + apply String.eqb_eq in Hk. now subst k0.
    + rewrite IH. unfold dict_mem. rewrite dict_get_set.
      rewrite String.eqb_sym in Hk. now rewrite Hk.
Qed.

Lemma known_keys_cons k v d :
  known_keys ((k, v) :: d) = existsb (String.eqb k) parameter_names && known_keys d.
Proof. reflexivity. Qed.

Lemma known_keys_set d k v :
  existsb (String.eqb k) parameter_names = true ->
  known_keys (dict_set d k v) = known_keys d.
Proof.
  intros Hk. induction d as [|[k0 v0] t IH].
  - cbn [dict_set]. now rewrite known_keys_cons, Hk.
  - cbn [dict_set]. destruct (String.eqb k0 k) eqn:H0.
    + apply String.eqb_eq in H0. subst k0. now rewrite !known_keys_cons.
    + now rewrite !known_keys_cons, IH.
Qed.

Section FilterFacts.
Context (E : Env).

Lemma dict_get_set_if_truthy params field key value k' :
  dict_get (PgVectorDataStore.set_if_truthy params field key value) k' =
  if String.eqb key k' then
    match when_truthy field value with
    | Some x => Some x
    | None => dict_get params k'
    end
  else dict_get params k'.
Proof.
  unfold PgVectorDataStore.set_if_truthy, when_truthy.
  destruct field as [s|]; [destruct (truthy_str (Some s))|]; simpl;
    rewrite ?dict_get_set; now destruct (String.eqb key k').
Qed.

Lemma unique_keys_set_if_truthy params field key value :
  unique_keys (PgVectorDataStore.set_if_truthy params field key value)
  = unique_keys params.
Proof.
  unfold PgVectorDataStore.set_if_truthy.
  destruct field as [s|]; [destruct (truthy_str (Some s))|];
    now rewrite ?unique_keys_set.
Qed.

Lemma known_keys_set_if_truthy params field key value :
  existsb (String.eqb key) parameter_names = true ->
  known_keys (PgVectorDataStore.set_if_truthy params field key value)
  = known_keys params.
Proof.
  intros Hk. unfold PgVectorDataStore.set_if_truthy.
  destruct field as [s|]; [destruct (truthy_str (Some s))|];
    now rewrite ?known_keys_set.
Qed.

Lemma eq_if_truthy_app builder field column :
  SupabaseClient.eq_if_truthy builder field column =
  builder ++ (if truthy_str field then [Eq_ column (of_opt_str field)] else []).
Proof.
  unfold SupabaseClient.eq_if_truthy.
  destruct field as [s|]; [destruct (truthy_str (Some s))|];
    simpl; now rewrite ?app_nil_r.
Qed.

Lemma date_if_falsy builder field op column :
  truthy_str field = false ->
  SupabaseClient.date_if_truthy E builder field op column = Ok builder.
Proof.
  unfold SupabaseClient.date_if_truthy.
  destruct field as [s|]; [|reflexivity]. now intros ->.
Qed.

Lemma base_params_cases query :
  base_params query = [("in_embedding", PList (map PFloat (QueryWithEmbedding.embedding query)))]
  \/ exists k, base_params query =
       [("in_embedding", PList (map PFloat (QueryWithEmbedding.embedding query)));
        ("in_match_count", PInt k)].
Proof.
  unfold base_params.
  destruct (QueryWithEmbedding.top_k query) as [k|]; [|now left].
  destruct (truthy_int (Some k)); [right; now exists k | now left].
Qed.

Ltac source_case filter :=
  destruct (DocumentMetadataFilter.source filter);
  rewrite ?dict_get_set, ?unique_keys_set, ?known_keys_set by reflexivity.

(** C7, as amended: a filter field yields its parameter exactly when it is
    truthy, that is present and not the empty string (a present [source] is
    always truthy); nothing is emitted for the other fields, every field has
    one parameter name of its own and no name is emitted twice.  In
    [delete_by_filters] the same holds of the equality predicates of
    [document_id], [source], [source_id] and [author], for filters whose
    date fields are not truthy. *)
Theorem filter_translation_truthy (query : QueryWithEmbedding.t)
    (filter : DocumentMetadataFilter.t) :
  QueryWithEmbedding.filter query = Some filter ->
  let params := PgVectorDataStore.query_params E query in
  dict_get params "in_document_id"
    = when_truthy (DocumentMetadataFilter.document_id filter) PStr
  /\ dict_get params "in_source"
    = option_map (fun s => PStr (Source_value s)) (DocumentMetadataFilter.source filter)
  /\ dict_get params "in_source_id"
    = when_truthy (DocumentMetadataFilter.source_id filter) PStr
  /\ dict_get params "in_author"
    = when_truthy (DocumentMetadataFilter.author filter) PStr
  /\ dict_get params "in_start_date"
    = when_truthy (DocumentMetadataFilter.start_date filter)
        (fun v => PDatetime (to_unix_timestamp E v))
  /\ dict_get params "in_end_date"
    = when_truthy (DocumentMetadataFilter.end_date filter)
        (fun v => PDatetime (to_unix_timestamp E v))
  /\ unique_keys params = true
  /\ known_keys params = true
  /\ (truthy_str (DocumentMetadataFilter.start_date filter) = false ->
      truthy_str (DocumentMetadataFilter.end_date filter) = false ->
      SupabaseClient.filter_conds E filter = Ok (equality_conds filter)).
Proof.
  intros Hf params.
  assert (Hp : params = PgVectorDataStore.filter_params E (base_params query) filter).
  { subst params. unfold PgVectorDataStore.query_params, base_params.
    rewrite Hf. now destruct (QueryWithEmbedding.top_k query) as [k|];
      [destruct (truthy_int (Some k))|]. }
  rewrite Hp. clear Hp params Hf. unfold PgVectorDataStore.filter_params.
  repeat split.
  1-6: rewrite ?dict_get_set_if_truthy; source_case filter;
       rewrite ?dict_get_set_if_truthy; cbn [String.eqb Ascii.eqb Bool.eqb];
       try destruct (base_params_cases query) as [-> | [z ->]];
       repeat match goal with |- context [when_truthy ?o ?f] =>
                destruct (when_truthy o f) end; reflexivity.
  - rewrite ?unique_keys_set_if_truthy; source_case filter;
      rewrite ?unique_keys_set_if_truthy;
      destruct (base_params_cases query) as [-> | [z ->]]; reflexivity.
  - rewrite ?known_keys_set_if_truthy by reflexivity; source_case filter;
      rewrite ?known_keys_set_if_truthy by reflexivity;
      destruct (base_params_cases query) as [-> | [z ->]]; reflexivity.
  - intros Hs He. unfold SupabaseClient.filter_conds, equality_conds.
    rewrite !eq_if_truthy_app.
    rewrite (date_if_falsy _ _ _ _ Hs), (date_if_falsy _ _ _ _ He).
    destruct (DocumentMetadataFilter.source filter);
      simpl; rewrite <- ?app_assoc; simpl; now rewrite ?app_nil_r.
Qed.

End FilterFacts.

(** ** Serialization *)

Section SerializationFacts.
Context (E : Env).

Local Abbreviation convert := SupabaseClient._convert_object_to_serializable_json.

Lemma convert_dict_eq d :
  convert (PDict d) = PDict (SupabaseClient.convert_dict d).
Proof. reflexivity. Qed.

Lemma convert_dict_cons k v d :
  SupabaseClient.convert_dict ((k, v) :: d) =
  if is_None v then SupabaseClient.convert_dict d
  else (k, convert v) :: SupabaseClient.convert_dict d.
Proof. unfold SupabaseClient.convert_dict. simpl. now destruct (is_None v). Qed.

Lemma convert_not_None v : is_None v = false -> is_None (convert v) = false.
Proof. now destruct v. Qed.

Lemma convert_flattened v : flattened (convert v) = true.
Proof.
  induction v as [| | | | | | | |l IH|d IH]; try reflexivity.
  - simpl. induction IH as [|x Hx l Hl IHl]; simpl; [reflexivity|].
    now rewrite Hx, IHl.
  - rewrite convert_dict_eq. cbn [flattened].
    induction IH as [|[k x] Hx d Hd IHd].
    + reflexivity.
    + rewrite convert_dict_cons. destruct (is_None x) eqn:Hn; [exact IHd|].
      cbn [forallb snd]. inversion Hx as [? ? ? Hv]; subst.
      now rewrite (convert_not_None _ Hn), Hv, IHd.
Qed.

Lemma convert_fixes_flattened v : flattened v = true -> convert v = v.
Proof.
  induction v as [| | | | | | | |l IH|d IH]; try reflexivity; try discriminate.
  - cbn [flattened]. intros H. cbn [SupabaseClient._convert_object_to_serializable_json].
    f_equal. induction IH as [|x Hx l Hl IHl]; [reflexivity|].
    cbn [forallb] in H. apply andb_true_iff in H as [H1 H2].
    cbn [map]. now rewrite (Hx H1), (IHl H2).
  - cbn [flattened]. intros H. rewrite convert_dict_eq. f_equal.
    induction IH as [|[k x] Hx d Hd IHd]; [reflexivity|].
    cbn [forallb snd] in H. apply andb_true_iff in H as [H1 H2].
    apply andb_true_iff in H1 as [Hn Hf]. apply negb_true_iff in Hn.
    rewrite convert_dict_cons, Hn. inversion Hx as [? ? ? Hv]; subst.
    now rewrite (Hv Hf), (IHd H2).
Qed.

Lemma convert_dict_items d :
  SupabaseClient.convert_dict d
  = map (fun kv => (fst kv, convert (snd kv))) (not_None_items d).
Proof.
  induction d as [|[k x] d IH]; [reflexivity|].
  rewrite convert_dict_cons. unfold not_None_items in *. cbn [filter snd].
  destruct (is_None x); cbn [negb map fst snd]; now rewrite IH.
Qed.

(** C8, as amended: the recursive pass replaces an enum member by its
    value, rewrites the elements of a list in place, keeps of a dict the
    entries whose value is not None, under their keys and with their values
    rewritten, and returns every other value (a number, a string, a tuple,
    a timestamp) as it is.  So no enum member and no None-valued dict entry
    is left as far as dicts and lists nest, and a value with nothing to
    rewrite comes back unchanged.  A timestamp is turned into its ISO
    string only by [upsert], for the top-level entry [created_at], whose
    value is a tuple holding the timestamp first: that string is what the
    request carries. *)
Theorem serialization_flattens_enums_and_none (v : pyval) :
  (forall cls value, convert (PEnum cls value) = PStr value)
  /\ (forall l, convert (PList l) = PList (map convert l))
  /\ (forall d,
        convert (PDict d)
        = PDict (map (fun kv => (fst kv, convert (snd kv))) (not_None_items d)))
  /\ match v with
     | PEnum _ _ | PList _ | PDict _ => True
     | _ => convert v = v
     end
  /\ flattened (convert v) = true
  /\ (flattened v = true -> convert v = v)
  /\ convert (convert v) = convert v
  /\ (forall ts, convert (PDatetime ts) = PDatetime ts)
  /\ (forall table json ts rest w,
        dict_get (SupabaseClient.convert_dict json) "created_at"
          = Some (PTuple (PDatetime ts :: rest)) ->
        In (Execute (Upsert table
                       (dict_set (SupabaseClient.convert_dict json) "created_at"
                          (PStr (isoformat E ts)))))
           (trace (snd (SupabaseClient.upsert E table json w)))).
Proof.
  split; [reflexivity|].
  split; [reflexivity|].
  split; [intros d; now rewrite convert_dict_eq, convert_dict_items|].
  split; [now destruct v|].
  split; [apply convert_flattened|].
  split; [apply convert_fixes_flattened|].
  split; [apply convert_fixes_flattened, convert_flattened|].
  split; [reflexivity|].
  intros table json ts rest w Hc.
  unfold SupabaseClient.upsert, bind, log, lift, try_except,
    SupabaseClient.created_at_isoformat, SupabaseClient.exec, ret,
    SupabaseClient.log_exception.
  cbn [trace now]. rewrite Hc. cbn [getitem0 isoformat_of].
  match goal with |- context [execute E ?h ?r] => destruct (execute E h r) as [rows|e] end.
  - cbn [emit trace snd]. rewrite ?in_app_iff; cbn [In]; tauto.
  - destruct (format E _ e); unfold log, raise; cbn [emit trace snd];
      rewrite ?in_app_iff; cbn [In]; tauto.
Qed.

End SerializationFacts.

(** ** Loops *)

Lemma for_each_app {A} (l1 l2 : list A) (body : A -> M unit) w :
  for_each (l1 ++ l2) body w = (for_each l1 body ;;; for_each l2 body) w.
Proof.
  revert w. induction l1 as [|x t IH]; intros w; simpl.
  - reflexivity.
  - unfold bind. destruct (body x w) as [[u|e] w1]; [|reflexivity].
    rewrite IH. reflexivity.
Qed.

Lemma for_collect_app {A B} (l1 l2 : list A) (body : A -> M B) w :
  for_collect (l1 ++ l2) body w =
  (ys1 <- for_collect l1 body ;; ys2 <- for_collect l2 body ;; ret (ys1 ++ ys2)) w.
Proof.
  revert w. induction l1 as [|x t IH]; intros w; simpl.
  - unfold bind, ret. destruct (for_collect l2 body w) as [[ys|e] w1]; reflexivity.
  - unfold bind. destruct (body x w) as [[y|e] w1]; [|reflexivity].
    rewrite IH. unfold bind, ret.
    destruct (for_collect t body w1) as [[ys1|e] w2]; [|reflexivity].
    destruct (for_collect l2 body w2) as [[ys2|e] w3]; reflexivity.
Qed.

(** ** Upsert *)

Section UpsertFacts.
Context (E : Env).

Lemma upsert_propagates {client : PGClient.t} docs1 document_id chunks1 chunk chunks2 docs2
    w ids w1 e w2 :
  PgVectorDataStore._upsert E (docs1 ++ [(document_id, chunks1)]) w = (Ok ids, w1) ->
  PGClient.upsert "documents" (PgVectorDataStore.chunk_json E document_id chunk) w1
    = (Raise e, w2) ->
  PgVectorDataStore._upsert E
    (docs1 ++ (document_id, chunks1 ++ chunk :: chunks2) :: docs2) w = (Raise e, w2).
Proof.
  unfold PgVectorDataStore._upsert. intros H1 H2.
  apply bind_inv_Ok in H1 as (u & wa & H1 & Hret).
  injection Hret as _ <-.
  rewrite for_each_app in H1. apply bind_inv_Ok in H1 as (u1 & wb & Hdocs & Hlast).
  cbn [for_each] in Hlast. apply bind_inv_Ok in Hlast as (u2 & wc & Hchunks & Hret).
  injection Hret as _ <-.
  apply bind_Raise. rewrite for_each_app. rewrite (bind_Ok _ _ _ _ _ Hdocs).
  cbn [for_each]. apply bind_Raise. rewrite for_each_app.
  rewrite (bind_Ok _ _ _ _ _ Hchunks). cbn [for_each]. now apply bind_Raise.
Qed.

Lemma supabase_upsert_swallows table json payload e text w :
  SupabaseClient.created_at_isoformat E (SupabaseClient.convert_dict json) = Ok payload ->
  let logged :=
    replay E w
      [Log INFO [Text "Got to upsert in supabase_datastore.py"];
       Log INFO [Text "Json before conversion: "; Obj (PDict json)];
       Log INFO [Text "Json after conversion: ";
                 Obj (PDict (SupabaseClient.convert_dict json))]] in
  execute E (trace logged) (Upsert table payload) = Raise e ->
  format E ("Got exception in supabase_datastore.py: " ++ str E e)%string e = Ok text ->
  SupabaseClient.upsert E table json w =
  (Ok tt, replay E logged [Execute (Upsert table payload); Log ERROR_ [Text text]]).
Proof.
  intros Hp logged He Hf.
  unfold SupabaseClient.upsert, bind, log, lift, try_except, SupabaseClient.exec, ret,
    SupabaseClient.log_exception.
  rewrite Hp. subst logged. cbn [replay fold_left emit trace now] in *.
  now rewrite He, Hf.
Qed.

Lemma supabase_upsert_handler_raises table json payload e e' w :
  SupabaseClient.created_at_isoformat E (SupabaseClient.convert_dict json) = Ok payload ->
  let logged :=
    replay E w
      [Log INFO [Text "Got to upsert in supabase_datastore.py"];
       Log INFO [Text "Json before conversion: "; Obj (PDict json)];
       Log INFO [Text "Json after conversion: ";
                 Obj (PDict (SupabaseClient.convert_dict json))]] in
  execute E (trace logged) (Upsert table payload) = Raise e ->
  format E ("Got exception in supabase_datastore.py: " ++ str E e)%string e = Raise e' ->
  SupabaseClient.upsert E table json w =
  (Raise e', replay E logged [Execute (Upsert table payload)]).
Proof.
  intros Hp logged He Hf.
  unfold SupabaseClient.upsert, bind, log, lift, try_except, SupabaseClient.exec, ret,
    SupabaseClient.log_exception.
  rewrite Hp. subst logged. cbn [replay fold_left emit trace now] in *.
  now rewrite He, Hf.
Qed.

(** C3, as amended: [_upsert] itself recovers nothing: an exception raised by
    the client's [upsert] for a chunk propagates out of [_upsert] at once.
    The Supabase client's [upsert], however, catches an exception raised
    by the backend when the write is executed: when the error line it
    writes for it can be formatted, it logs that line and returns, so that
    the error does not reach [_upsert] or its caller; when formatting that
    line raises, what comes out of [upsert] is the error of the formatting,
    not the one of the backend. *)
Theorem upsert_error_propagation :
  (forall (client : PGClient.t) docs1 document_id chunks1 chunk chunks2 docs2 w ids w1 e w2,
      PgVectorDataStore._upsert E (docs1 ++ [(document_id, chunks1)]) w = (Ok ids, w1) ->
      PGClient.upsert "documents" (PgVectorDataStore.chunk_json E document_id chunk) w1
        = (Raise e, w2) ->
      PgVectorDataStore._upsert E
        (docs1 ++ (document_id, chunks1 ++ chunk :: chunks2) :: docs2) w = (Raise e, w2))
  /\ (forall table json payload e text w,
      SupabaseClient.created_at_isoformat E (SupabaseClient.convert_dict json) = Ok payload ->
      let logged :=
        replay E w
          [Log INFO [Text "Got to upsert in supabase_datastore.py"];
           Log INFO [Text "Json before conversion: "; Obj (PDict json)];
           Log INFO [Text "Json after conversion: ";
                     Obj (PDict (SupabaseClient.convert_dict json))]] in
      execute E (trace logged) (Upsert table payload) = Raise e ->
      format E ("Got exception in supabase_datastore.py: " ++ str E e)%string e = Ok text ->
      PGClient.upsert (t := SupabaseClient.client E) table json w =
      (Ok tt, replay E logged [Execute (Upsert table payload); Log ERROR_ [Text text]]))
  /\ (forall table json payload e e' w,
      SupabaseClient.created_at_isoformat E (SupabaseClient.convert_dict json) = Ok payload ->
      let logged :=
        replay E w
          [Log INFO [Text "Got to upsert in supabase_datastore.py"];
           Log INFO [Text "Json before conversion: "; Obj (PDict json)];
           Log INFO [Text "Json after conversion: ";
                     Obj (PDict (SupabaseClient.convert_dict json))]] in
      execute E (trace logged) (Upsert table payload) = Raise e ->
      format E ("Got exception in supabase_datastore.py: " ++ str E e)%string e = Raise e' ->
      PGClient.upsert (t := SupabaseClient.client E) table json w =
      (Raise e', replay E logged [Execute (Upsert table payload)])).
Proof.
  split; [|split].
  - intros client. apply upsert_propagates.
  - apply supabase_upsert_swallows.
  - apply supabase_upsert_handler_raises.
Qed.

End UpsertFacts.

(** ** Query *)

Section QueryFacts.
Context (E : Env) {client : PGClient.t}.

(** A query never raises: whatever happens in its [try] is caught. *)
Lemma query_one_returns query w :
  exists results w',
    PgVectorDataStore.query_one E query w =
    (Ok (QueryResult.mk (QueryWithEmbedding.query query) results), w').
Proof.
  unfold PgVectorDataStore.query_one.
  unfold bind at 1. unfold log at 1. unfold try_except.
  match goal with |- context [match ?m ?w0 with _ => _ end] =>
    destruct (m w0) as [[r|e] w1] eqn:Hm end.
  - apply bind_inv_Ok in Hm as (data & wa & _ & Hm).
    apply bind_inv_Ok in Hm as (results & wb & _ & Hm).
    injection Hm as <- <-. now exists results, wb.
  - unfold bind, log, ret. now eexists _, _.
Qed.

Lemma query_one_rpc_raises query w e w2 :
  PGClient.rpc "match_page_sections" (PgVectorDataStore.query_params E query)
    (emit E (Log INFO [Obj (PDict (PgVectorDataStore.query_params E query))]) w)
    = (Raise e, w2) ->
  PgVectorDataStore.query_one E query w =
  (Ok (QueryResult.mk (QueryWithEmbedding.query query) []),
   emit E (Log ERROR_ [Exn e]) w2).
Proof.
  intros H. unfold PgVectorDataStore.query_one.
  unfold bind at 1. unfold log at 1.
  erewrite try_except_Raise by (apply bind_Raise; exact H).
  reflexivity.
Qed.

Lemma query_returns queries w :
  exists results w',
    PgVectorDataStore._query E queries w = (Ok results, w')
    /\ map QueryResult.query results = map QueryWithEmbedding.query queries.
Proof.
  unfold PgVectorDataStore._query. revert w.
  induction queries as [|q qs IH]; intros w.
  - now exists [], w.
  - destruct (query_one_returns q w) as (r & w1 & H1).
    destruct (IH w1) as (rs & w2 & H2 & Hm).
    eexists _, w2. cbn [for_collect].
    rewrite (bind_Ok _ _ _ _ _ H1), (bind_Ok _ _ _ _ _ H2). split; [reflexivity|].
    cbn. now rewrite Hm.
Qed.

(** C2: a batch of queries always returns, with one result per query in the
    order of the queries.  When the similarity call of a query raises, the
    entry of that query has no results and the exception is logged as an
    error; the queries before it and after it return exactly the results
    they return as batches of their own. *)
Theorem query_failure_is_isolated (before : list QueryWithEmbedding.t)
    (query : QueryWithEmbedding.t) (after : list QueryWithEmbedding.t) (w : World) :
  exists results1 w1,
    PgVectorDataStore._query E before w = (Ok results1, w1)
    /\ forall e w2,
        PGClient.rpc "match_page_sections" (PgVectorDataStore.query_params E query)
          (emit E (Log INFO [Obj (PDict (PgVectorDataStore.query_params E query))]) w1)
          = (Raise e, w2) ->
        exists results2 w3,
          PgVectorDataStore._query E after (emit E (Log ERROR_ [Exn e]) w2)
            = (Ok results2, w3)
          /\ PgVectorDataStore._query E (before ++ query :: after) w
             = (Ok (results1
                      ++ QueryResult.mk (QueryWithEmbedding.query query) []
                      :: results2), w3)
          /\ map QueryResult.query results1 = map QueryWithEmbedding.query before
          /\ map QueryResult.query results2 = map QueryWithEmbedding.query after.
Proof.
  destruct (query_returns before w) as (rs1 & w1 & H1 & Hm1).
  exists rs1, w1. split; [exact H1|]. intros e w2 Hrpc.
  destruct (query_returns after (emit E (Log ERROR_ [Exn e]) w2)) as (rs2 & w3 & H2 & Hm2).
  exists rs2, w3. repeat split; try assumption.
  unfold PgVectorDataStore._query in *. rewrite for_collect_app.
  rewrite (bind_Ok _ _ _ _ _ H1). cbn [for_collect].
  apply query_one_rpc_raises in Hrpc.
  unfold bind at 1. unfold bind at 1. rewrite Hrpc.
  unfold bind at 1. rewrite H2. reflexivity.
Qed.

End QueryFacts.

(** ** Commands *)

Lemma replay_app E w evs1 evs2 :
  replay E w (evs1 ++ evs2) = replay E (replay E w evs1) evs2.
Proof. apply fold_left_app. Qed.

Lemma trace_replay E w evs : trace (replay E w evs) = trace w ++ evs.
Proof.
  revert w. induction evs as [|ev evs IH]; intros w; cbn [replay fold_left].
  - now rewrite app_nil_r.
  - fold (replay E (emit E ev w) evs). rewrite IH.
    destruct ev; cbn [emit trace]; now rewrite <- app_assoc.
Qed.

Lemma updates_app tr1 tr2 : updates (tr1 ++ tr2) = updates tr1 ++ updates tr2.
Proof. apply flat_map_app. Qed.

Lemma writes_app tr1 tr2 : writes (tr1 ++ tr2) = writes tr1 ++ writes tr2.
Proof. apply flat_map_app. Qed.

Lemma updates_rounds n id : updates (rounds n id) = [].
Proof. induction n; [reflexivity|]. cbn [rounds]. now rewrite updates_app, IHn. Qed.

Section CommandFacts.
Context (E : Env).

(** C10: [get_command] returns None exactly when the client's [get_by_id]
    returns no row for the id; when rows are returned, the result is the
    Command that the constructor gives on the first of them.  In both cases
    the outcome of [get_by_id] is passed on and no exception of its own is
    raised for a missing id. *)
Theorem get_command_none_iff_no_row {client : PGClient.t} (command_id : string)
    (w : World) (rows : list pyval) (w' : World) :
  PGClient.get_by_id "commands" command_id (Some Command.fields) w = (Ok rows, w') ->
  (PgVectorDataStore.get_command E command_id w = (Ok None, w') <-> rows = [])
  /\ (forall row rest, rows = row :: rest ->
        PgVectorDataStore.get_command E command_id w =
        (match new_Command E row with
         | Ok command => Ok (Some command)
         | Raise e => Raise e
         end, w')).
Proof.
  intros H. unfold PgVectorDataStore.get_command.
  rewrite (bind_Ok _ _ _ _ _ H). split.
  - destruct rows as [|row rest]; [tauto|]. split; [|discriminate].
    unfold bind, lift, ret. destruct (new_Command E row); discriminate.
  - intros row rest ->. unfold bind, lift, ret. now destruct (new_Command E row).
Qed.

End CommandFacts.

(** ** The command lifecycle *)

Section LifecycleFacts.
Context (E : Env).

(** What one iteration of the loop does, by the answer to its fetch. *)
Lemma poll_once_cases id request_command start_time w :
  let w1 := replay E w (poll_events id) in
  Main.poll_once E id request_command start_time w =
  match execute E (trace w ++ [Log INFO [Text "Polling for command status..."]]) (fetch id) with
  | Raise e => (Raise e, w1)
  | Ok [] => (Raise (AttributeError "status"), w1)
  | Ok (row :: _) =>
      match new_Command E row with
      | Raise e => (Raise e, w1)
      | Ok command =>
          match Command.status command with
          | COMPLETED => (Ok (Some (CommandResponse.mk id None)), w1)
          | ERROR => (Ok (Some (CommandResponse.mk id (Command.errors command))), w1)
          | _ =>
              if Main.DEADLINE <? now w1 - start_time then
                (PgVectorDataStore.update_command (client := Main.datastore E)
                   (CommandWithContent.set_status request_command ABANDONED) ;;;
                 ret (Some (CommandResponse.mk id (Some Main.TIMEOUT_MESSAGE)))) w1
              else (Ok None, emit E (Sleep Main.INTERVAL) w1)
          end
      end
  end.
Proof.
  intros w1. subst w1.
  unfold Main.poll_once, PgVectorDataStore.get_command.
  unfold bind at 1. unfold log at 1.
  unfold bind at 1. unfold bind at 1.
  cbn [PGClient.get_by_id Main.datastore SupabaseClient.client].
  unfold SupabaseClient.get_by_id, SupabaseClient.exec.
  change (Select "commands" _ [Eq_ "id" (PStr id)]) with (fetch id).
  cbn [trace now replay fold_left poll_events emit].
  destruct (execute E _ (fetch id)) as [[|row rest]|e]; try reflexivity.
  unfold bind at 1. unfold lift at 1.
  destruct (new_Command E row) as [c|e]; [|reflexivity].
  unfold ret at 1.
  destruct (Command.status c); try reflexivity;
    unfold bind at 1; unfold Main.time; cbn [now];
    destruct (Main.DEADLINE <? _); reflexivity.
Qed.

Lemma abandoned_id created id :
  CommandWithContent.id created = Some id ->
  getitem (PDict (SupabaseClient.convert_dict
                    (CommandWithContent.dict
                       (CommandWithContent.set_status created ABANDONED)))) "id"
  = Ok (PStr id).
Proof.
  intros Hid. destruct created as [i st er ca ua ty co]. cbn in Hid. subst i.
  unfold CommandWithContent.dict, CommandWithContent.set_status.
  cbn [CommandWithContent.id of_opt_str]. now rewrite convert_dict_cons.
Qed.

(** The update sent for a command that carries its id. *)
Lemma update_command_abandons created id w :
  CommandWithContent.id created = Some id ->
  PgVectorDataStore.update_command (client := Main.datastore E)
    (CommandWithContent.set_status created ABANDONED) w =
  (match execute E (trace w ++ removelast (abandon_events created id))
           (abandon_update created id) with
   | Ok _ => Ok true
   | Raise e => Raise e
   end,
   replay E w (abandon_events created id)).
Proof.
  intros Hid.
  unfold PgVectorDataStore.update_command.
  cbn [PGClient.update Main.datastore SupabaseClient.client].
  unfold SupabaseClient.update, bind, log, lift, ret, SupabaseClient.exec.
  rewrite (abandoned_id _ _ Hid).
  cbn [abandon_events abandon_update removelast replay fold_left emit trace now].
  rewrite <- !app_assoc. cbn [app]. unfold abandon_update.
  match goal with |- context [execute E ?h ?r] => destruct (execute E h r) end;
    reflexivity.
Qed.

Lemma now_polled id w :
  now (replay E w (poll_events id))
  = now w + tick E (trace w ++ [Log INFO [Text "Polling for command status..."]]).
Proof. reflexivity. Qed.

Lemma writes_polled id w :
  writes (trace (replay E w (poll_events id))) = writes (trace w).
Proof. rewrite trace_replay, writes_app. cbn. now rewrite app_nil_r. Qed.


(** An iteration after which the loop goes round again has polled and
    slept, and nothing else. *)
Lemma poll_once_goes_round id request_command start_time w :
  fst (Main.poll_once E id request_command start_time w) = Ok None ->
  Main.poll_once E id request_command start_time w
  = (Ok None, replay E w (round_events id)).
Proof.
  rewrite poll_once_cases.
  destruct (execute E _ (fetch id)) as [[|r rs]|e]; try discriminate.
  destruct (new_Command E r) as [c|e]; try discriminate.
  assert (Hgo : forall m : M (option CommandResponse.t),
    (forall w1, fst (m w1) <> Ok None) ->
    fst (if Main.DEADLINE <? now (replay E w (poll_events id)) - start_time
         then m (replay E w (poll_events id))
         else (Ok None, emit E (Sleep Main.INTERVAL) (replay E w (poll_events id))))
    = Ok None ->
    (if Main.DEADLINE <? now (replay E w (poll_events id)) - start_time
     then m (replay E w (poll_events id))
     else (Ok None, emit E (Sleep Main.INTERVAL) (replay E w (poll_events id))))
    = (Ok None, replay E w (round_events id))).
  { intros m Hm. destruct (Main.DEADLINE <? _).
    - intros H. now apply Hm in H.
    - intros _. unfold round_events. now rewrite replay_app. }
  destruct (Command.status c); try discriminate; apply Hgo;
    intros w1; unfold bind, ret;
    destruct (PgVectorDataStore.update_command _ _) as [[b|e] w3]; discriminate.
Qed.


Lemma abandon_outcome created id (response : CommandResponse.t) w :
  CommandWithContent.id created = Some id ->
  (PgVectorDataStore.update_command (client := Main.datastore E)
     (CommandWithContent.set_status created ABANDONED) ;;;
   ret (Some response)) w
  = (match execute E (trace w ++ removelast (abandon_events created id))
             (abandon_update created id) with
     | Ok _ => Ok (Some response)
     | Raise e => Raise e
     end, replay E w (abandon_events created id)).
Proof.
  intros Hid. unfold bind.
  rewrite (update_command_abandons _ _ _ Hid).
  now destruct (execute E _ (abandon_update created id)).
Qed.

Lemma rounds_succ_poll n id w :
  replay E w (rounds (S n) id ++ poll_events id)
  = replay E (replay E w (round_events id)) (rounds n id ++ poll_events id).
Proof. cbn [rounds]. now rewrite <- app_assoc, replay_app. Qed.

(** From inside the loop: when no fetch ever shows a terminal status and the
    clock does not run backwards, the loop sends the update that abandons
    the command at the first check past the deadline, after at most [f]
    rounds if [f] sleeps are enough to pass the deadline; it returns the
    timeout response when the update is served and raises what the update
    raises otherwise. *)
Lemma poll_abandons id created start_time :
  CommandWithContent.id created = Some id ->
  (forall h, 0 <= tick E h) ->
  (forall h, exists row rest command,
      execute E h (fetch id) = Ok (row :: rest)
      /\ new_Command E row = Ok command
      /\ Command.status command <> COMPLETED
      /\ Command.status command <> ERROR) ->
  forall f fuel w,
    (f < fuel)%nat ->
    Main.DEADLINE < now w - start_time + Main.INTERVAL * Z.of_nat f ->
    exists n, (n <= f)%nat
      /\ Main.poll E fuel id created start_time w
         = Some (match execute E
                         (trace (replay E w (rounds n id ++ poll_events id))
                          ++ removelast (abandon_events created id))
                         (abandon_update created id) with
                 | Ok _ => Ok (CommandResponse.mk id (Some Main.TIMEOUT_MESSAGE))
                 | Raise e => Raise e
                 end,
                 replay E (replay E w (rounds n id ++ poll_events id))
                   (abandon_events created id))
      /\ (forall k, (k < n)%nat ->
            now (replay E w (rounds k id ++ poll_events id)) - start_time
            <= Main.DEADLINE)
      /\ Main.DEADLINE
         < now (replay E w (rounds n id ++ poll_events id)) - start_time.
Proof.
  intros Hid Hclock Hfetch.
  assert (Hnow : forall w fuel,
    Main.DEADLINE < now (replay E w (poll_events id)) - start_time ->
    Main.poll E (S fuel) id created start_time w
    = Some (match execute E
                    (trace (replay E w (poll_events id))
                     ++ removelast (abandon_events created id))
                    (abandon_update created id) with
            | Ok _ => Ok (CommandResponse.mk id (Some Main.TIMEOUT_MESSAGE))
            | Raise e => Raise e
            end,
            replay E (replay E w (poll_events id)) (abandon_events created id))).
  { intros w fuel Hlt. apply Z.ltb_lt in Hlt. cbn [Main.poll].
    rewrite poll_once_cases.
    destruct (Hfetch (trace w ++ [Log INFO [Text "Polling for command status..."]]))
      as (row & rest & c & Hx & Hc & Hn1 & Hn2).
    rewrite Hx, Hc, Hlt, (abandon_outcome _ _ _ _ Hid).
    destruct (Command.status c); try congruence;
      now destruct (execute E _ (abandon_update created id)). }
  assert (Hlater : forall w fuel,
    now (replay E w (poll_events id)) - start_time <= Main.DEADLINE ->
    Main.poll E (S fuel) id created start_time w
    = Main.poll E fuel id created start_time (replay E w (round_events id))).
  { intros w fuel Hle. apply Z.ltb_ge in Hle. cbn [Main.poll].
    rewrite poll_once_cases.
    destruct (Hfetch (trace w ++ [Log INFO [Text "Polling for command status..."]]))
      as (row & rest & c & Hx & Hc & Hn1 & Hn2).
    rewrite Hx, Hc, Hle. unfold round_events. rewrite replay_app.
    destruct (Command.status c); congruence || reflexivity. }
  induction f as [|f IH]; intros fuel w Hfuel Hd;
    (destruct fuel as [|fuel]; [lia|]);
    pose proof (now_polled id w) as Hpolled;
    pose proof (Hclock (trace w ++ [Log INFO [Text "Polling for command status..."]]))
      as Htick;
    destruct (Z_lt_le_dec Main.DEADLINE (now (replay E w (poll_events id)) - start_time))
      as [Hlt | Hle].
  - exists 0%nat. split; [lia|]. cbn [rounds app]. rewrite (Hnow _ _ Hlt).
    repeat split; [intros k Hk; lia | exact Hlt].
  - unfold Main.DEADLINE, Main.INTERVAL in *. lia.
  - exists 0%nat. split; [lia|]. cbn [rounds app]. rewrite (Hnow _ _ Hlt).
    repeat split; [intros k Hk; lia | exact Hlt].
  - rewrite (Hlater _ _ Hle).
    assert (Hnow2 : now w + Main.INTERVAL <= now (replay E w (round_events id))).
    { replace (replay E w (round_events id))
        with (emit E (Sleep Main.INTERVAL) (replay E w (poll_events id)))
        by (unfold round_events; now rewrite replay_app).
      cbn [emit now]. rewrite Hpolled.
      pose proof (Hclock (trace (replay E w (poll_events id)))). lia. }
    destruct (IH fuel (replay E w (round_events id))) as (n & Hn & Hpoll & Hbefore & Hafter).
    + lia.
    + unfold Main.DEADLINE, Main.INTERVAL in *. lia.
    + exists (S n). split; [lia|]. rewrite !rounds_succ_poll.
      repeat split.
      * exact Hpoll.
      * intros [|k] Hk.
        -- cbn [rounds app]. exact Hle.
        -- rewrite rounds_succ_poll. apply Hbefore. lia.
      * exact Hafter.
Qed.

Lemma created_payload command :
  CommandWithContent.created_at command = None ->
  SupabaseClient.created_at_isoformat E
    (SupabaseClient.convert_dict (CommandWithContent.dict command))
  = Ok (SupabaseClient.convert_dict (CommandWithContent.dict command)).
Proof.
  destruct command as [i st er ca ua ty co]. cbn [CommandWithContent.created_at].
  intros ->. unfold SupabaseClient.created_at_isoformat, CommandWithContent.dict.
  cbn [CommandWithContent.id CommandWithContent.status CommandWithContent.errors
       CommandWithContent.created_at CommandWithContent.updated_at
       CommandWithContent.type CommandWithContent.content].
  destruct i, er, ua; repeat (rewrite convert_dict_cons; cbn [is_None of_opt_str
    of_CommandStatus of_CommandType]); reflexivity.
Qed.

Lemma abandoned_status created :
  exists rest,
    SupabaseClient.convert_dict
      (CommandWithContent.dict (CommandWithContent.set_status created ABANDONED))
    = rest /\ dict_get rest "status" = Some (PStr "ABANDONED").
Proof.
  eexists. split; [reflexivity|].
  destruct created as [i st er ca ua ty co].
  unfold CommandWithContent.dict, CommandWithContent.set_status.
  cbn [CommandWithContent.id CommandWithContent.status].
  destruct i; repeat (rewrite convert_dict_cons; cbn [is_None of_opt_str
    of_CommandStatus]); reflexivity.
Qed.

Lemma datastore_create_command command w0 :
  let id := uuid4 E (trace w0) in
  let created := CommandWithContent.set_id command (Some id) in
  CommandWithContent.created_at command = None ->
  (forall h, exists rows,
      execute E h (Upsert "commands"
                     (SupabaseClient.convert_dict (CommandWithContent.dict created)))
      = Ok rows) ->
  PgVectorDataStore.create_command E (client := Main.datastore E) command w0
  = (Ok (id, created), replay E w0 (tl (creation_events command created id))).
Proof.
  intros id created Hca Hupsert.
  unfold PgVectorDataStore.create_command. fold id. fold created.
  cbn [PGClient.upsert Main.datastore SupabaseClient.client].
  unfold SupabaseClient.upsert, bind, log, lift, try_except, ret, SupabaseClient.exec.
  rewrite (created_payload created) by (destruct command; exact Hca).
  cbn [trace now].
  match goal with |- context [execute E ?h ?r] =>
    destruct (Hupsert h) as [rows ->] end.
  reflexivity.
Qed.

(** C1, as amended: a command is created and every fetch of it shows a
    status that is neither COMPLETED nor ERROR.  Then the run of the endpoint
    is the one
    listed in [abandoned_run]: the creation, [n] rounds of a poll followed
    by a sleep of 5, a last poll, and one update, the only one of the run,
    which sets the status of that command to ABANDONED.  That last poll is
    the first one at which more than 20 time units have passed since the
    recorded start, and there are at most 5 rounds before it.  What the
    endpoint returns depends on the answer to that update: when the backend
    serves it, the response with the id of the command and the message
    "Command was abandoned due to timeout. Check Obsidian connection"; when
    the update raises, the error is logged and the endpoint raises the HTTP
    error 500, without that message.  The command is one that gets created:
    the request carries no [created_at] and the backend serves the
    creation; the clock does not run backwards. *)
Theorem create_command_abandons_on_timeout (command : CommandWithContent.t)
    (w : World) (fuel : nat) :
  let id :=
    uuid4 E (trace w ++ [Log INFO [Text "Received Command: ";
                                   Obj (PDict (CommandWithContent.dict command))]]) in
  let created := CommandWithContent.set_id command (Some id) in
  let started := replay E w (creation_events command created id) in
  let checked k :=
    replay E w (creation_events command created id
                ++ rounds k id ++ poll_events id) in
  (forall h, 0 <= tick E h) ->
  CommandWithContent.created_at command = None ->
  (forall h, exists rows,
      execute E h (Upsert "commands"
                     (SupabaseClient.convert_dict (CommandWithContent.dict created)))
      = Ok rows) ->
  (forall h, exists row rest fetched,
      execute E h (fetch id) = Ok (row :: rest)
      /\ new_Command E row = Ok fetched
      /\ Command.status fetched <> COMPLETED
      /\ Command.status fetched <> ERROR) ->
  (6 <= fuel)%nat ->
  exists n, (n <= 5)%nat
    /\ Main.create_command E fuel command w
       = Some
           match execute E (trace (checked n) ++ removelast (abandon_events created id))
                   (abandon_update created id) with
           | Ok _ =>
               (Ok (CommandResponse.mk id
                      (Some "Command was abandoned due to timeout. Check Obsidian connection")),
                replay E w (abandoned_run command created id n))
           | Raise e =>
               (Raise (HTTPException 500 "Internal Service Error"),
                replay E w (abandoned_run command created id n
                            ++ [Log ERROR_ [Exn e]; Log ERROR_ [Cause e]]))
           end
    /\ (forall k, (k < n)%nat -> now (checked k) - now started <= 20)
    /\ 20 < now (checked n) - now started
    /\ updates (abandoned_run command created id n) = [abandon_update created id]
    /\ (exists payload,
          abandon_update created id = Update "commands" payload [Eq_ "id" (PStr id)]
          /\ dict_get payload "status" = Some (PStr "ABANDONED")).
Proof.
  intros id created started checked Hclock Hca Hupsert Hfetch Hfuel.
  set (w0 := emit E (Log INFO [Text "Received Command: ";
                               Obj (PDict (CommandWithContent.dict command))]) w).
  pose proof (datastore_create_command command w0 Hca Hupsert) as Hcreate.
  cbn zeta in Hcreate. change (uuid4 E (trace w0)) with id in Hcreate.
  fold created in Hcreate.
  assert (Hstarted : replay E w0 (tl (creation_events command created id)) = started)
    by reflexivity.
  rewrite Hstarted in Hcreate.
  assert (Hchecked : forall k,
    checked k = replay E started (rounds k id ++ poll_events id)).
  { intros k. unfold checked, started. now rewrite replay_app. }
  destruct (poll_abandons id created (now started) eq_refl Hclock Hfetch
              5%nat fuel started) as (n & Hn & Hpoll & Hbefore & Hafter).
  { lia. }
  { unfold Main.DEADLINE, Main.INTERVAL. lia. }
  exists n. split; [exact Hn|]. split; [|split; [|split; [|split]]].
  - unfold Main.create_command. unfold log at 1. cbn beta iota.
    change (mkWorld (now w) _) with w0. rewrite Hcreate, Hpoll, Hchecked.
    assert (Hrun : replay E (replay E started (rounds n id ++ poll_events id))
                     (abandon_events created id)
                   = replay E w (abandoned_run command created id n)).
    { unfold abandoned_run, started. now rewrite <- !replay_app, <- !app_assoc. }
    rewrite Hrun.
    destruct (execute E _ (abandon_update created id)) as [rows|e].
    + reflexivity.
    + now rewrite (replay_app E w).
  - intros k Hk. rewrite Hchecked. now apply Hbefore.
  - rewrite Hchecked. exact Hafter.
  - unfold abandoned_run. rewrite !updates_app, updates_rounds. reflexivity.
  - destruct (abandoned_status created) as (payload & Hp & Hs).
    exists payload. split; [|exact Hs]. unfold abandon_update. now rewrite Hp.
Qed.

End LifecycleFacts.

(** * Instances on concrete inputs *)

(** ** Delete *)

Lemma delete_exactly_one_mode_counterexample :
  ~ (forall ids filter delete_all, exists r,
       delete_requests
         (trace (snd (PgVectorDataStore.delete
                        (client := SupabaseClient.client (example_env backend_empty 0))
                        ids filter delete_all w0)))
       = [r]).
Proof.
  intros H. destruct (H None None None) as [r Hr]. discriminate Hr.
Qed.

Lemma delete_runs_selected_mode_witness :
  selected_mode (Some ["doc1"])
    (Some (DocumentMetadataFilter.mk None None None (Some "ann") None None)) (Some true)
  = Some DeleteAll
  /\ PgVectorDataStore.delete
       (client := SupabaseClient.client (example_env backend_empty 0))
       (Some ["doc1"])
       (Some (DocumentMetadataFilter.mk None None None (Some "ann") None None))
       (Some true) w0
     = (Ok true, mkWorld 0 [Execute (Delete "documents" [Like "document_id" "%"])]).
Proof.
  split.
  - apply (proj1 (proj2 (delete_runs_selected_mode
                           (client := SupabaseClient.client (example_env backend_empty 0))
                           (Some ["doc1"])
                           (Some (DocumentMetadataFilter.mk None None None (Some "ann") None None))
                           (Some true) w0))).
    reflexivity.
  - rewrite (proj1 (delete_runs_selected_mode
                      (client := SupabaseClient.client (example_env backend_empty 0))
                      (Some ["doc1"])
                      (Some (DocumentMetadataFilter.mk None None None (Some "ann") None None))
                      (Some true) w0)).
    reflexivity.
Defined.

Lemma delete_false_on_exception_witness :
  PgVectorDataStore.delete
    (client := SupabaseClient.client (example_env backend_down 0))
    (Some ["doc1"]) None None w0
  = (Ok false, mkWorld 0 [Execute (Delete "documents" [In_ "document_id" ["doc1"]])]).
Proof.
  apply (proj1 (delete_false_on_exception
                  (client := SupabaseClient.client (example_env backend_down 0))
                  (Some ["doc1"]) None None (DeleteByIds ["doc1"]) w0 eq_refl)
           (BackendError "connection refused")).
  reflexivity.
Defined.

Lemma delete_nothing_returns_true_witness :
  PgVectorDataStore.delete
    (client := SupabaseClient.client (example_env backend_down 0))
    (Some []) None (Some false) w0
  = (Ok true, w0).
Proof.
  apply (delete_nothing_returns_true
           (client := SupabaseClient.client (example_env backend_down 0))
           (Some []) (Some false) w0); reflexivity.
Defined.

(** A filter object with no field set is not an absent filter: the delete
    operation runs the filter delete with no condition at all. *)
Lemma delete_empty_filter_counterexample :
  PgVectorDataStore.delete
    (client := SupabaseClient.client (example_env backend_empty 0))
    None (Some empty_filter) None w0
  = (Ok true, replay (example_env backend_empty 0) w0 [Execute (Delete "documents" [])])
  /\ delete_requests
       (trace (snd (PgVectorDataStore.delete
                      (client := SupabaseClient.client (example_env backend_empty 0))
                      None (Some empty_filter) None w0)))
     = [Delete "documents" []].
Proof. split; reflexivity. Qed.

(** ** Filter translation *)

(** A filter whose [document_id] is the empty string: the field is present,
    and no parameter is emitted for it. *)
Lemma filter_present_iff_emitted_counterexample :
  ~ (forall filter : DocumentMetadataFilter.t,
       DocumentMetadataFilter.document_id filter <> None <->
       has_key (PgVectorDataStore.query_params (example_env backend_empty 0)
                  (QueryWithEmbedding.mk "q" (Some filter) (Some 3) []))
               "in_document_id" = true).
Proof.
  intros H.
  destruct (H (DocumentMetadataFilter.mk (Some "") None None None None None)) as [H1 _].
  assert (Hp : Some "" <> @None string) by discriminate.
  specialize (H1 Hp). discriminate H1.
Qed.

Lemma filter_translation_truthy_witness :
  dict_get (PgVectorDataStore.query_params (example_env backend_empty 0)
              (example_query "q" (Some "")))
           "in_document_id" = Some (PStr "doc1")
  /\ dict_get (PgVectorDataStore.query_params (example_env backend_empty 0)
                (example_query "q" (Some "")))
             "in_author" = None.
Proof.
  pose proof (filter_translation_truthy (example_env backend_empty 0)
                (example_query "q" (Some ""))
                (DocumentMetadataFilter.mk (Some "doc1") None None (Some "") None None)
                eq_refl) as H.
  split; [exact (proj1 H) | exact (proj1 (proj2 (proj2 (proj2 H))))].
Defined.

(** ** Serialization *)

(** A timestamp under a key other than [created_at] is sent as it is. *)
Lemma timestamps_rewritten_counterexample :
  ~ (forall v : pyval,
       no_timestamp (SupabaseClient._convert_object_to_serializable_json v) = true)
  /\ snd (SupabaseClient.update (example_env backend_empty 0) "commands"
            [("id", PStr "c1"); ("updated_at", PDatetime 0)] w0)
     = replay (example_env backend_empty 0) w0
         [Log INFO [Text "Command before serializing: ";
                    Obj (PDict [("id", PStr "c1"); ("updated_at", PDatetime 0)])];
          Log INFO [Text "Command after serializing: ";
                    Obj (PDict [("id", PStr "c1"); ("updated_at", PDatetime 0)])];
          Execute (Update "commands" [("id", PStr "c1"); ("updated_at", PDatetime 0)]
                     [Eq_ "id" (PStr "c1")])].
Proof.
  split; [|reflexivity].
  intros H. specialize (H (PDict [("updated_at", PDatetime 0)])). discriminate H.
Qed.

Lemma serialization_flattens_enums_and_none_witness :
  SupabaseClient._convert_object_to_serializable_json
    (PDict [("status", PStr "NEW"); ("tags", PList [PInt 1; PBool true])])
  = PDict [("status", PStr "NEW"); ("tags", PList [PInt 1; PBool true])]
  /\ In (Execute (Upsert "documents"
                    [("id", PStr "A"); ("content", PStr "some text");
                     ("document_id", PStr "doc1"); ("source", PStr "FILE");
                     ("created_at", PStr "1970-01-01T00:00:00")]))
        (trace (snd (SupabaseClient.upsert (example_env backend_empty 0) "documents"
                       (PgVectorDataStore.chunk_json (example_env backend_empty 0) "doc1"
                          (example_chunk "A"))
                       w0))).
Proof.
  split.
  - apply (proj1 (proj2 (proj2 (proj2 (proj2 (proj2
             (serialization_flattens_enums_and_none (example_env backend_empty 0)
                (PDict [("status", PStr "NEW");
                        ("tags", PList [PInt 1; PBool true])])))))))).
    reflexivity.
  - exact (proj2 (proj2 (proj2 (proj2 (proj2 (proj2 (proj2 (proj2
             (serialization_flattens_enums_and_none
                (example_env backend_empty 0) PNone))))))))
             "documents"
             (PgVectorDataStore.chunk_json (example_env backend_empty 0) "doc1"
                (example_chunk "A"))
             0 [] w0 eq_refl).
Defined.

(** ** Upsert *)

(** The backend raises on every chunk write, and [_upsert] on the Supabase
    client returns the document ids all the same. *)
Lemma upsert_error_propagates_counterexample :
  fst (PgVectorDataStore._upsert (example_env backend_down 0)
         (client := SupabaseClient.client (example_env backend_down 0))
         [("doc1", [example_chunk "A"; example_chunk "B"])] w0)
  = Ok ["doc1"]
  /\ execute (example_env backend_down 0) []
       (Upsert "documents"
          [("id", PStr "A"); ("content", PStr "some text");
           ("document_id", PStr "doc1"); ("source", PStr "FILE");
           ("created_at", PStr "1970-01-01T00:00:00")])
     = Raise (BackendError "connection refused").
Proof. split; reflexivity. Qed.

Lemma upsert_error_propagation_witness :
  PgVectorDataStore._upsert (example_env backend_down 0)
    (client := raising_client (example_env backend_down 0))
    [("doc1", [example_chunk "A"; example_chunk "B"])] w0
  = (Raise (BackendError "connection refused"),
     replay (example_env backend_down 0) w0
       [Execute (Upsert "documents"
                   (PgVectorDataStore.chunk_json (example_env backend_down 0) "doc1"
                      (example_chunk "A")))])
  /\ fst (PGClient.upsert (t := SupabaseClient.client (example_env backend_down 0))
            "documents"
            (PgVectorDataStore.chunk_json (example_env backend_down 0) "doc1"
               (example_chunk "A")) w0)
     = Ok tt
  /\ fst (PGClient.upsert (t := SupabaseClient.client (example_env backend_braces 0))
            "documents"
            (PgVectorDataStore.chunk_json (example_env backend_braces 0) "doc1"
               (example_chunk "A")) w0)
     = Raise (KeyError "boom").
Proof.
  split; [|split].
  - apply (proj1 (upsert_error_propagation (example_env backend_down 0))
             (raising_client (example_env backend_down 0))
             [] "doc1" [] (example_chunk "A") [example_chunk "B"] [] w0 ["doc1"] w0);
      reflexivity.
  - rewrite (proj1 (proj2 (upsert_error_propagation (example_env backend_down 0)))
               "documents"
               (PgVectorDataStore.chunk_json (example_env backend_down 0) "doc1"
                  (example_chunk "A"))
               _ (BackendError "connection refused") _ w0 eq_refl eq_refl eq_refl).
    reflexivity.
  - rewrite (proj2 (proj2 (upsert_error_propagation (example_env backend_braces 0)))
               "documents"
               (PgVectorDataStore.chunk_json (example_env backend_braces 0) "doc1"
                  (example_chunk "A"))
               _ (BackendError "{boom}") (KeyError "boom") w0 eq_refl eq_refl eq_refl).
    reflexivity.
Defined.

(** ** Query *)

Lemma query_failure_is_isolated_witness :
  fst (PgVectorDataStore._query (example_env backend_flaky 0)
         (client := SupabaseClient.client (example_env backend_flaky 0))
         [example_query "first" None; example_query "second" (Some "ann");
          example_query "third" None] w0)
  = Ok [QueryResult.mk "first" [example_hit]; QueryResult.mk "second" [];
        QueryResult.mk "third" [example_hit]].
Proof.
  destruct (query_failure_is_isolated (example_env backend_flaky 0)
              (client := SupabaseClient.client (example_env backend_flaky 0))
              [example_query "first" None] (example_query "second" (Some "ann"))
              [example_query "third" None] w0)
    as (results1 & w1 & H1 & H).
  vm_compute in H1. injection H1 as <- <-.
  edestruct (H (BackendError "statement timeout")) as (results2 & w3 & H2 & H3 & _).
  { vm_compute. reflexivity. }
  vm_compute in H2. injection H2 as <- <-.
  cbn [app] in H3. rewrite H3. reflexivity.
Defined.

(** ** Commands *)

Lemma get_command_none_iff_no_row_witness :
  PgVectorDataStore.get_command (example_env backend_empty 0)
    (client := SupabaseClient.client (example_env backend_empty 0)) "c1" w0
  = (Ok None, replay (example_env backend_empty 0) w0 [Execute (fetch "c1")]).
Proof.
  apply (proj1 (get_command_none_iff_no_row (example_env backend_empty 0)
                  (client := SupabaseClient.client (example_env backend_empty 0))
                  "c1" w0 []
                  (replay (example_env backend_empty 0) w0 [Execute (fetch "c1")])
                  eq_refl)).
  reflexivity.
Defined.


Lemma create_command_abandons_on_timeout_witness :
  exists n, (n <= 5)%nat
    /\ Main.create_command (example_env (backend_status "NEW" PNone) 0) 6
         example_command w0
       = Some (Ok (CommandResponse.mk "c1"
                     (Some "Command was abandoned due to timeout. Check Obsidian connection")),
               replay (example_env (backend_status "NEW" PNone) 0) w0
                 (abandoned_run example_command
                    (CommandWithContent.set_id example_command (Some "c1")) "c1" n)).
Proof.
  destruct (create_command_abandons_on_timeout
              (example_env (backend_status "NEW" PNone) 0) example_command w0 6)
    as (n & Hn & Hrun & _).
  - intros h. cbn. lia.
  - reflexivity.
  - intros h. now exists [].
  - intros h. eexists _, [], _. repeat split; try reflexivity; discriminate.
  - lia.
  - exists n. split; [exact Hn | exact Hrun].
Defined.

(** When the backend refuses the update, the command is abandoned after the
    same run, every fetch having shown the status NEW, but the endpoint
    raises the HTTP error 500 instead of returning the timeout message. *)
Lemma create_command_update_raises_counterexample :
  let E := example_env backend_update_fails 0 in
  let created := CommandWithContent.set_id example_command (Some "c1") in
  let e := BackendError "connection reset" in
  (forall h, exists row fetched,
      execute E h (fetch "c1") = Ok [row]
      /\ new_Command E row = Ok fetched
      /\ Command.status fetched = NEW)
  /\ Main.create_command E 6 example_command w0
     = Some (Raise (HTTPException 500 "Internal Service Error"),
             replay E w0 (abandoned_run example_command created "c1" 5
                          ++ [Log ERROR_ [Exn e]; Log ERROR_ [Cause e]]))
  /\ updates (abandoned_run example_command created "c1" 5)
     = [abandon_update created "c1"].
Proof.
  cbn zeta. split; [|split].
  - intros h. eexists _, _. repeat split; reflexivity.
  - vm_compute. reflexivity.
  - vm_compute. reflexivity.
Qed.

(** * Further properties *)

(** ** Start-up *)

(** X1: start-up gets as far as constructing the Supabase client exactly
    when DATASTORE is "supabase", SUPABASE_URL is set and one of the two keys
    is set; the client is then constructed on that URL with the service role
    key when that key is truthy, and with the anon key otherwise. *)
Theorem get_datastore_started_iff (env : Factory.environ) (client : Factory.Client) :
  Factory.get_datastore env = Factory.Started client <->
  env "DATASTORE" = Some "supabase"
  /\ exists url,
       env "SUPABASE_URL" = Some url
       /\ (env "SUPABASE_ANON_KEY" <> None \/ env "SUPABASE_SERVICE_ROLE_KEY" <> None)
       /\ client = Factory.mkClient url
                     (if truthy_str (env "SUPABASE_SERVICE_ROLE_KEY")
                      then env "SUPABASE_SERVICE_ROLE_KEY"
                      else env "SUPABASE_ANON_KEY").
Proof.
  unfold Factory.get_datastore, Factory.import_supabase_datastore,
    Factory.SupabaseClient_init.
  split.
  - destruct (env "DATASTORE") as [d|]; [|discriminate].
    destruct (String.eqb d "supabase") eqn:Hd; [|discriminate].
    apply String.eqb_eq in Hd. subst d.
    destruct (env "SUPABASE_URL") as [url|]; [|discriminate].
    intros H.
    destruct (env "SUPABASE_ANON_KEY") as [anon|],
             (env "SUPABASE_SERVICE_ROLE_KEY") as [service|];
      try discriminate H;
      cbn [Factory.SUPABASE_URL Factory.SUPABASE_ANON_KEY
           Factory.SUPABASE_SERVICE_ROLE_KEY] in H;
      injection H as <-; (split; [reflexivity|]); exists url;
      (split; [reflexivity|]); (split; [(left; discriminate) || (right; discriminate)|]);
      unfold truthy_str; try destruct (String.eqb service ""); reflexivity.
  - intros (Hd & url & Hurl & Hkey & ->). rewrite Hd, Hurl. cbn [String.eqb Ascii.eqb Bool.eqb].
    destruct (env "SUPABASE_ANON_KEY") as [anon|],
             (env "SUPABASE_SERVICE_ROLE_KEY") as [service|];
      cbn [Factory.SUPABASE_URL Factory.SUPABASE_ANON_KEY
           Factory.SUPABASE_SERVICE_ROLE_KEY];
      unfold truthy_str; try destruct (String.eqb service ""); try reflexivity.
    destruct Hkey as [H|H]; now elim H.
Qed.

Lemma get_datastore_started_iff_witness :
  Factory.get_datastore (example_environ (Some "service-key"))
  = Factory.Started (Factory.mkClient "https://project.supabase.co" (Some "service-key")).
Proof.
  apply (proj2 (get_datastore_started_iff (example_environ (Some "service-key")) _)).
  split; [reflexivity|]. exists "https://project.supabase.co".
  split; [reflexivity|]. split; [right; discriminate | reflexivity].
Defined.

(** X2: the two assertions on the keys do not ensure that the client gets a
    key: when start-up gets as far as constructing the client, the key it
    is constructed with is None exactly when the service role key is set to
    the empty string and the anon key is not set. *)
Theorem started_client_without_key (env : Factory.environ) (client : Factory.Client) :
  Factory.get_datastore env = Factory.Started client ->
  (Factory.supabase_key client = None <->
   env "SUPABASE_SERVICE_ROLE_KEY" = Some "" /\ env "SUPABASE_ANON_KEY" = None).
Proof.
  unfold Factory.get_datastore, Factory.import_supabase_datastore,
    Factory.SupabaseClient_init.
  destruct (env "DATASTORE") as [d|]; [|discriminate].
  destruct (String.eqb d "supabase"); [|discriminate].
  destruct (env "SUPABASE_URL") as [url|]; [|discriminate].
  intros H.
  destruct (env "SUPABASE_ANON_KEY") as [anon|],
           (env "SUPABASE_SERVICE_ROLE_KEY") as [[|c service]|];
    try discriminate H; cbn in H; injection H as <-; cbn;
    split; try discriminate; try tauto; intros [H1 H2]; discriminate.
Qed.

Lemma started_client_without_key_witness :
  Factory.get_datastore (example_environ (Some ""))
  = Factory.Started (Factory.mkClient "https://project.supabase.co" None)
  /\ (Factory.supabase_key (Factory.mkClient "https://project.supabase.co" None) = None <->
      example_environ (Some "") "SUPABASE_SERVICE_ROLE_KEY" = Some ""
      /\ example_environ (Some "") "SUPABASE_ANON_KEY" = None).
Proof.
  split; [reflexivity|].
  apply (started_client_without_key (example_environ (Some "")) _ eq_refl).
Defined.

(** ** Serialization, continued *)

Lemma convert_dict_nil : SupabaseClient.convert_dict [] = [].
Proof. reflexivity. Qed.

Lemma convert_dict_app d1 d2 :
  SupabaseClient.convert_dict (d1 ++ d2)
  = SupabaseClient.convert_dict d1 ++ SupabaseClient.convert_dict d2.
Proof.
  induction d1 as [|[k v] t IH]; [reflexivity|].
  cbn [app]. rewrite !convert_dict_cons, IH. now destruct (is_None v).
Qed.

Lemma dict_get_convert_absent d k :
  dict_get d k = None -> dict_get (SupabaseClient.convert_dict d) k = None.
Proof.
  induction d as [|[k0 v0] t IH]; [reflexivity|].
  cbn [dict_get]. rewrite convert_dict_cons.
  destruct (String.eqb k0 k) eqn:Hk; [discriminate|]. intros H.
  destruct (is_None v0); [now apply IH|]. cbn [dict_get]. rewrite Hk. now apply IH.
Qed.

Lemma convert_dict_keys d :
  map fst (SupabaseClient.convert_dict d) = map fst (not_None_items d).
Proof.
  induction d as [|[k0 v0] t IH]; [reflexivity|].
  rewrite convert_dict_cons. unfold not_None_items in *. cbn [filter snd].
  destruct (is_None v0); cbn [negb map fst]; now rewrite IH.
Qed.

Lemma dict_get_convert_dict d k :
  unique_keys d = true ->
  dict_get (SupabaseClient.convert_dict d) k =
  match dict_get d k with
  | Some v =>
      if is_None v then None
      else Some (SupabaseClient._convert_object_to_serializable_json v)
  | None => None
  end.
Proof.
  induction d as [|[k0 v0] t IH]; [reflexivity|].
  cbn [unique_keys]. intros H. apply andb_true_iff in H as [Hk0 Hu].
  apply negb_true_iff in Hk0. unfold dict_mem in Hk0.
  rewrite convert_dict_cons. cbn [dict_get].
  destruct (String.eqb k0 k) eqn:Hk.
  - apply String.eqb_eq in Hk. subst k0.
    destruct (dict_get t k) eqn:Ht; [discriminate|].
    destruct (is_None v0).
    + now apply dict_get_convert_absent.
    + cbn [dict_get]. now rewrite String.eqb_refl.
  - destruct (is_None v0); [now apply IH|].
    cbn [dict_get]. rewrite Hk. now apply IH.
Qed.

(** X3: the entries left by the conversion of a dict are exactly those whose
    value is not None, in their order and under their keys; on a dict whose
    keys are distinct, a key that is left holds the converted value. *)
Theorem convert_dict_lookup (d : pydict) (k : string) :
  map fst (SupabaseClient.convert_dict d) = map fst (not_None_items d)
  /\ (unique_keys d = true ->
      dict_get (SupabaseClient.convert_dict d) k =
      match dict_get d k with
      | Some v =>
          if is_None v then None
          else Some (SupabaseClient._convert_object_to_serializable_json v)
      | None => None
      end).
Proof.
  split; [apply convert_dict_keys | apply dict_get_convert_dict].
Qed.

Lemma convert_dict_lookup_witness :
  dict_get (SupabaseClient.convert_dict
              [("id", PStr "c1"); ("errors", PNone);
               ("status", PEnum "CommandStatus" "NEW")]) "status"
  = Some (PStr "NEW").
Proof.
  rewrite (proj2 (convert_dict_lookup
                    [("id", PStr "c1"); ("errors", PNone);
                     ("status", PEnum "CommandStatus" "NEW")] "status") eq_refl).
  reflexivity.
Defined.

(** ** Requests executed *)

Lemma executed_app tr1 tr2 : executed (tr1 ++ tr2) = executed tr1 ++ executed tr2.
Proof. apply flat_map_app. Qed.

Lemma executed_log tr l msg : executed (tr ++ [Log l msg]) = executed tr.
Proof. rewrite executed_app. cbn. now rewrite app_nil_r. Qed.

Lemma executed_execute tr r : executed (tr ++ [Execute r]) = executed tr ++ [r].
Proof. now rewrite executed_app. Qed.

Lemma executed_sleep tr d : executed (tr ++ [Sleep d]) = executed tr.
Proof. rewrite executed_app. cbn. now rewrite app_nil_r. Qed.

Section ClientFacts.
Context (E : Env).

(** The Supabase [upsert] sends the row and returns, or raises on
    [created_at] before anything is sent, or sends the row and raises out
    of its handler: the backend has raised an error whose line cannot be
    written. *)
Lemma supabase_upsert_cases table json w :
  exists w',
    (exists payload,
        SupabaseClient.created_at_isoformat E (SupabaseClient.convert_dict json)
          = Ok payload
        /\ SupabaseClient.upsert E table json w = (Ok tt, w')
        /\ executed (trace w') = executed (trace w) ++ [Upsert table payload])
    \/ (exists e,
        SupabaseClient.created_at_isoformat E (SupabaseClient.convert_dict json)
          = Raise e
        /\ SupabaseClient.upsert E table json w = (Raise e, w')
        /\ executed (trace w') = executed (trace w))
    \/ (exists payload h e e',
        SupabaseClient.created_at_isoformat E (SupabaseClient.convert_dict json)
          = Ok payload
        /\ execute E h (Upsert table payload) = Raise e
        /\ format E ("Got exception in supabase_datastore.py: " ++ str E e)%string e
           = Raise e'
        /\ SupabaseClient.upsert E table json w = (Raise e', w')
        /\ executed (trace w') = executed (trace w) ++ [Upsert table payload]).
Proof.
  unfold SupabaseClient.upsert, bind, log, lift, try_except, SupabaseClient.exec, ret,
    SupabaseClient.log_exception.
  cbn [trace now].
  destruct (SupabaseClient.created_at_isoformat E _) as [payload|e].
  - match goal with |- context [execute E ?h ?r] =>
      destruct (execute E h r) as [rows|e] eqn:Hx end.
    + eexists; left; exists payload; (split; [reflexivity|]);
        (split; [reflexivity|]); cbn [emit trace];
        now rewrite ?executed_log, executed_execute, !executed_log.
    + destruct (format E _ e) as [text|e'] eqn:Hf.
      * eexists; left; exists payload; (split; [reflexivity|]);
          (split; [reflexivity|]); unfold log; cbn [emit trace];
          now rewrite ?executed_log, executed_execute, !executed_log.
      * eexists; right; right; exists payload; eexists; exists e, e'.
        split; [reflexivity|]. split; [exact Hx|]. split; [exact Hf|].
        split; [reflexivity|]. unfold raise; cbn [emit trace].
        now rewrite ?executed_log, executed_execute, !executed_log.
  - eexists. right. left. exists e. split; [reflexivity|]. split; [reflexivity|].
    cbn [trace]. now rewrite !executed_log.
Qed.

Lemma chunk_json_unique document_id chunk :
  unique_keys (PgVectorDataStore.chunk_json E document_id chunk) = true.
Proof.
  unfold PgVectorDataStore.chunk_json.
  destruct (DocumentChunkMetadata.created_at _) as [s|];
    [destruct (truthy_str (Some s))|]; now rewrite ?unique_keys_set.
Qed.

Lemma chunk_json_created_at document_id chunk :
  dict_get (PgVectorDataStore.chunk_json E document_id chunk) "created_at"
  = when_truthy (DocumentChunkMetadata.created_at (DocumentChunk.metadata chunk))
      (fun v => PTuple [PDatetime (to_unix_timestamp E v)]).
Proof.
  unfold PgVectorDataStore.chunk_json, when_truthy.
  destruct (DocumentChunkMetadata.created_at _) as [s|];
    [destruct (truthy_str (Some s))|]; now rewrite ?dict_get_set.
Qed.

Lemma chunk_json_other document_id chunk k :
  String.eqb "created_at" k = false ->
  dict_get (PgVectorDataStore.chunk_json E document_id chunk) k
  = dict_get
      [("id", of_opt_str (DocumentChunk.id chunk));
       ("content", PStr (DocumentChunk.text chunk));
       ("embedding", PgVectorDataStore.of_opt_embedding (DocumentChunk.embedding chunk));
       ("document_id", PStr document_id);
       ("source", of_opt_Source (DocumentChunkMetadata.source (DocumentChunk.metadata chunk)));
       ("source_id", of_opt_str (DocumentChunkMetadata.source_id (DocumentChunk.metadata chunk)));
       ("url", of_opt_str (DocumentChunkMetadata.url (DocumentChunk.metadata chunk)));
       ("author", of_opt_str (DocumentChunkMetadata.author (DocumentChunk.metadata chunk)))]
      k.
Proof.
  intros Hk. unfold PgVectorDataStore.chunk_json.
  destruct (DocumentChunkMetadata.created_at _) as [s|];
    [destruct (truthy_str (Some s))|]; rewrite ?dict_get_set, ?Hk; reflexivity.
Qed.

(** The row of a chunk is always built. *)
Lemma chunk_row_built document_id chunk :
  SupabaseClient.created_at_isoformat E
    (SupabaseClient.convert_dict (PgVectorDataStore.chunk_json E document_id chunk))
  = Ok (chunk_row E document_id chunk)
  /\ chunk_row E document_id chunk
     = match DocumentChunkMetadata.created_at (DocumentChunk.metadata chunk) with
       | Some v =>
           if truthy_str (Some v)
           then dict_set
                  (SupabaseClient.convert_dict
                     (PgVectorDataStore.chunk_json E document_id chunk))
                  "created_at" (PStr (isoformat E (to_unix_timestamp E v)))
           else SupabaseClient.convert_dict
                  (PgVectorDataStore.chunk_json E document_id chunk)
       | None => SupabaseClient.convert_dict
                   (PgVectorDataStore.chunk_json E document_id chunk)
       end.
Proof.
  unfold chunk_row, SupabaseClient.created_at_isoformat.
  rewrite (dict_get_convert_dict _ _ (chunk_json_unique document_id chunk)).
  rewrite chunk_json_created_at. unfold when_truthy.
  destruct (DocumentChunkMetadata.created_at _) as [s|];
    [destruct (truthy_str (Some s))|]; split; reflexivity.
Qed.

End ClientFacts.

(** ** Upsert, continued *)

Section SupabaseUpsertFacts.
Context (E : Env).

(** X4: the row sent for a chunk is always built, and it carries the
    document id under which the chunk is listed (whatever the chunk's own
    metadata say), the text as [content], the id and the source when they
    are set, and [created_at] as the ISO string of the timestamp when the
    chunk has a truthy [created_at], absent otherwise. *)
Theorem chunk_row_contents (document_id : string) (chunk : DocumentChunk.t) :
  let row := chunk_row E document_id chunk in
  let metadata := DocumentChunk.metadata chunk in
  SupabaseClient.created_at_isoformat E
    (SupabaseClient.convert_dict (PgVectorDataStore.chunk_json E document_id chunk))
  = Ok row
  /\ dict_get row "document_id" = Some (PStr document_id)
  /\ dict_get row "content" = Some (PStr (DocumentChunk.text chunk))
  /\ dict_get row "id" = option_map PStr (DocumentChunk.id chunk)
  /\ dict_get row "source"
     = option_map (fun s => PStr (Source_value s)) (DocumentChunkMetadata.source metadata)
  /\ dict_get row "created_at"
     = when_truthy (DocumentChunkMetadata.created_at metadata)
         (fun v => PStr (isoformat E (to_unix_timestamp E v))).
Proof.
  intros row metadata. subst row metadata.
  destruct (chunk_row_built E document_id chunk) as [Hb Hrow].
  split; [exact Hb|].
  assert (Hget : forall k, String.eqb "created_at" k = false ->
            dict_get (chunk_row E document_id chunk) k
            = dict_get (SupabaseClient.convert_dict
                          (PgVectorDataStore.chunk_json E document_id chunk)) k).
  { intros k Hk. rewrite Hrow.
    destruct (DocumentChunkMetadata.created_at _) as [s|];
      [destruct (truthy_str (Some s))|]; rewrite ?dict_get_set, ?Hk; reflexivity. }
  repeat split.
  1-4: rewrite Hget by reflexivity;
       rewrite (dict_get_convert_dict _ _ (chunk_json_unique E document_id chunk));
       rewrite chunk_json_other by reflexivity; cbn [dict_get String.eqb Ascii.eqb Bool.eqb].
  - reflexivity.
  - reflexivity.
  - now destruct (DocumentChunk.id chunk).
  - now destruct (DocumentChunkMetadata.source _).
  - rewrite Hrow. unfold when_truthy.
    destruct (DocumentChunkMetadata.created_at _) as [s|] eqn:Hc;
      [destruct (truthy_str (Some s)) eqn:Ht|].
    + now rewrite dict_get_set.
    + rewrite (dict_get_convert_dict _ _ (chunk_json_unique E document_id chunk)).
      rewrite chunk_json_created_at, Hc. unfold when_truthy. now rewrite Ht.
    + rewrite (dict_get_convert_dict _ _ (chunk_json_unique E document_id chunk)).
      now rewrite chunk_json_created_at, Hc.
Qed.

Lemma chunks_upserted document_id (document_chunks : list DocumentChunk.t) w :
  errors_loggable E ->
  exists w',
    for_each document_chunks (fun chunk =>
      PGClient.upsert (t := SupabaseClient.client E) "documents"
        (PgVectorDataStore.chunk_json E document_id chunk)) w = (Ok tt, w')
    /\ executed (trace w')
       = executed (trace w)
         ++ map (fun chunk => Upsert "documents" (chunk_row E document_id chunk))
              document_chunks.
Proof.
  intros Hlog. revert w. induction document_chunks as [|chunk rest IH]; intros w.
  - exists w. split; [reflexivity|]. cbn. now rewrite app_nil_r.
  - destruct (supabase_upsert_cases E "documents"
                (PgVectorDataStore.chunk_json E document_id chunk) w)
      as (w1 & [(payload & Hp & Hu & Hx) | [(e & He & _)
                | (payload & h & e & e' & _ & Hraised & Hf & _)]]).
    + rewrite (proj1 (chunk_row_built E document_id chunk)) in Hp.
      injection Hp as <-.
      destruct (IH w1) as (w2 & Hrest & Hx2). exists w2. split.
      * cbn [for_each]. cbn [PGClient.upsert SupabaseClient.client].
        now rewrite (bind_Ok _ _ _ _ _ Hu).
      * rewrite Hx2, Hx. cbn [map]. now rewrite <- app_assoc.
    + rewrite (proj1 (chunk_row_built E document_id chunk)) in He. discriminate.
    + destruct (Hlog _ _ _ Hraised) as [text Ht]. congruence.
Qed.

(** X5: on the Supabase client, when the error line can be written for
    every error the backend raises, [_upsert] returns the document ids of
    the batch, in their order, whatever the backend answers; the requests it
    executes are one upsert into [documents] per chunk, in the order of the
    documents and of their chunks, and nothing else. *)
Theorem supabase_upsert_writes_every_chunk
    (chunks : list (string * list DocumentChunk.t)) (w : World) :
  errors_loggable E ->
  exists w',
    PgVectorDataStore._upsert E (client := SupabaseClient.client E) chunks w
    = (Ok (map fst chunks), w')
    /\ executed (trace w')
       = executed (trace w)
         ++ map (fun '(document_id, chunk) =>
                   Upsert "documents" (chunk_row E document_id chunk))
              (chunk_list chunks).
Proof.
  intros Hlog. unfold PgVectorDataStore._upsert.
  assert (H : forall docs w,
    exists w',
      for_each docs (fun '(document_id, document_chunks) =>
        for_each document_chunks (fun chunk =>
          PGClient.upsert (t := SupabaseClient.client E) "documents"
            (PgVectorDataStore.chunk_json E document_id chunk))) w = (Ok tt, w')
      /\ executed (trace w')
         = executed (trace w)
           ++ map (fun '(document_id, chunk) =>
                     Upsert "documents" (chunk_row E document_id chunk))
                (chunk_list docs)).
  { induction docs as [|[d cs] rest IH]; intros w1.
    - exists w1. split; [reflexivity|]. cbn. now rewrite app_nil_r.
    - destruct (chunks_upserted d cs w1 Hlog) as (w2 & Hcs & Hx).
      destruct (IH w2) as (w3 & Hrest & Hx3). exists w3. split.
      + cbn [for_each]. now rewrite (bind_Ok _ _ _ _ _ Hcs).
      + rewrite Hx3, Hx. unfold chunk_list. cbn [flat_map].
        rewrite map_app, map_map. now rewrite <- app_assoc. }
  destruct (H chunks w) as (w' & Hrun & Hx). exists w'. split; [|exact Hx].
  now rewrite (bind_Ok _ _ _ _ _ Hrun).
Qed.

End SupabaseUpsertFacts.

(** ** Commands, continued *)

Section SupabaseCommandFacts.
Context (E : Env).

Lemma command_dict_unique command :
  unique_keys (CommandWithContent.dict command) = true.
Proof. reflexivity. Qed.

Lemma command_payload_id command :
  dict_get (SupabaseClient.convert_dict (CommandWithContent.dict command)) "id"
  = option_map PStr (CommandWithContent.id command).
Proof.
  rewrite (dict_get_convert_dict _ _ (command_dict_unique command)).
  cbn [CommandWithContent.dict dict_get String.eqb Ascii.eqb Bool.eqb].
  now destruct (CommandWithContent.id command).
Qed.

Lemma command_payload_created_at command :
  dict_get (SupabaseClient.convert_dict (CommandWithContent.dict command)) "created_at"
  = option_map PStr (CommandWithContent.created_at command).
Proof.
  rewrite (dict_get_convert_dict _ _ (command_dict_unique command)).
  cbn [CommandWithContent.dict dict_get String.eqb Ascii.eqb Bool.eqb].
  now destruct (CommandWithContent.created_at command).
Qed.

(** X6: [update_command] on a command that has no id raises KeyError
    for [id], the entry having been dropped by the conversion, and executes
    no request. *)
Theorem update_command_without_id (command : CommandWithContent.t) (w : World) :
  CommandWithContent.id command = None ->
  exists w',
    PgVectorDataStore.update_command (client := SupabaseClient.client E) command w
    = (Raise (KeyError "id"), w')
    /\ executed (trace w') = executed (trace w).
Proof.
  intros Hid. unfold PgVectorDataStore.update_command.
  cbn [PGClient.update SupabaseClient.client].
  unfold SupabaseClient.update, bind, log, lift, ret, getitem.
  rewrite command_payload_id, Hid. cbn [option_map].
  eexists. split; [reflexivity|]. cbn [trace]. now rewrite !executed_log.
Qed.

(** X7: [update_command] on a command with an id executes one request, the
    update of [commands] restricted to that id, with the converted command
    as payload; it returns True when the backend serves the request and
    raises what the backend raises otherwise. *)
Theorem update_command_with_id (command : CommandWithContent.t) (id : string) (w : World) :
  CommandWithContent.id command = Some id ->
  let payload := SupabaseClient.convert_dict (CommandWithContent.dict command) in
  let request := Update "commands" payload [Eq_ "id" (PStr id)] in
  let logged :=
    replay E w
      [Log INFO [Text "Attempting to update command in pgvector data store. Command: ";
                 Obj (PDict (CommandWithContent.dict command))];
       Log INFO [Text "Command before serializing: ";
                 Obj (PDict (CommandWithContent.dict command))];
       Log INFO [Text "Command after serializing: "; Obj (PDict payload)]] in
  PgVectorDataStore.update_command (client := SupabaseClient.client E) command w
  = (match execute E (trace logged) request with
     | Ok _ => Ok true
     | Raise e => Raise e
     end, emit E (Execute request) logged)
  /\ executed (trace (emit E (Execute request) logged)) = executed (trace w) ++ [request].
Proof.
  intros Hid payload request logged. subst payload request logged. split.
  - unfold PgVectorDataStore.update_command.
    cbn [PGClient.update SupabaseClient.client].
    unfold SupabaseClient.update, bind, log, lift, ret, getitem, SupabaseClient.exec.
    rewrite command_payload_id, Hid. cbn [option_map replay fold_left emit trace now].
    match goal with |- context [execute E ?h ?r] => destruct (execute E h r) end;
      reflexivity.
  - cbn [replay fold_left emit trace]. now rewrite executed_execute, !executed_log.
Qed.

(** X8: [create_command] of the datastore stores a command that carries no
    [created_at] under a fresh id, whatever id the command came with: it
    executes one request, the upsert into [commands] of the converted
    command with that id, and, when the error line can be written for every
    error the backend raises, returns the id and the command with the id
    assigned, whatever the backend answers to the request. *)
Theorem create_command_assigns_fresh_id (command : CommandWithContent.t) (w : World) :
  errors_loggable E ->
  CommandWithContent.created_at command = None ->
  let id := uuid4 E (trace w) in
  let created := CommandWithContent.set_id command (Some id) in
  let payload := SupabaseClient.convert_dict (CommandWithContent.dict created) in
  exists w',
    PgVectorDataStore.create_command E (client := SupabaseClient.client E) command w
    = (Ok (id, created), w')
    /\ executed (trace w') = executed (trace w) ++ [Upsert "commands" payload]
    /\ dict_get payload "id" = Some (PStr id).
Proof.
  intros Hlog Hca id created payload.
  unfold PgVectorDataStore.create_command. fold id. fold created.
  unfold bind at 1. unfold log at 1. unfold bind at 1. unfold log at 1.
  cbn [PGClient.upsert SupabaseClient.client].
  match goal with |- context [(_ ;;; _) ?w1] =>
    destruct (supabase_upsert_cases E "commands" (CommandWithContent.dict created) w1)
      as (w2 & [(p & Hp & Hu & Hx) | [(e & He & _)
                | (p & h & e & e' & _ & Hraised & Hf & _)]]) end.
  - rewrite (created_payload E created) in Hp by (destruct command; exact Hca).
    injection Hp as <-. exists w2. split; [|split].
    + now rewrite (bind_Ok _ _ _ _ _ Hu).
    + rewrite Hx. cbn [trace]. now rewrite !executed_log.
    + subst payload. now rewrite command_payload_id.
  - rewrite (created_payload E created) in He by (destruct command; exact Hca).
    discriminate.
  - destruct (Hlog _ _ _ Hraised) as [text Ht]. congruence.
Qed.

(** A command that comes with [created_at] is stopped at that field. *)
Lemma created_at_present_raises command created_at :
  CommandWithContent.created_at command = Some created_at ->
  exists e,
    SupabaseClient.created_at_isoformat E
      (SupabaseClient.convert_dict (CommandWithContent.dict command)) = Raise e.
Proof.
  intros Hca. unfold SupabaseClient.created_at_isoformat.
  rewrite command_payload_created_at, Hca. cbn [option_map].
  destruct created_at as [|c s]; cbn; eexists; reflexivity.
Qed.

End SupabaseCommandFacts.

Lemma update_command_without_id_witness :
  fst (PgVectorDataStore.update_command
         (client := SupabaseClient.client (example_env backend_empty 0))
         example_command w0)
  = Raise (KeyError "id").
Proof.
  destruct (update_command_without_id (example_env backend_empty 0)
              example_command w0 eq_refl) as (w' & H & _).
  now rewrite H.
Defined.

Lemma update_command_with_id_witness :
  fst (PgVectorDataStore.update_command
         (client := SupabaseClient.client (example_env backend_down 0))
         (CommandWithContent.set_id example_command (Some "c1")) w0)
  = Raise (BackendError "connection refused").
Proof.
  rewrite (proj1 (update_command_with_id (example_env backend_down 0)
                    (CommandWithContent.set_id example_command (Some "c1")) "c1" w0
                    eq_refl)).
  reflexivity.
Defined.

Lemma supabase_upsert_writes_every_chunk_witness :
  fst (PgVectorDataStore._upsert (example_env backend_down 0)
         (client := SupabaseClient.client (example_env backend_down 0))
         [("doc1", [example_chunk "A"]); ("doc2", [])] w0)
  = Ok ["doc1"; "doc2"].
Proof.
  assert (Hlog : errors_loggable (example_env backend_down 0)).
  { intros h r e He. cbn in He. injection He as <-. eexists. reflexivity. }
  destruct (supabase_upsert_writes_every_chunk (example_env backend_down 0)
              [("doc1", [example_chunk "A"]); ("doc2", [])] w0 Hlog) as (w' & H & _).
  now rewrite H.
Defined.

Lemma create_command_assigns_fresh_id_witness :
  fst (PgVectorDataStore.create_command (example_env backend_down 0)
         (client := SupabaseClient.client (example_env backend_down 0))
         (CommandWithContent.set_id example_command (Some "mine")) w0)
  = Ok ("c1", CommandWithContent.set_id example_command (Some "c1")).
Proof.
  assert (Hlog : errors_loggable (example_env backend_down 0)).
  { intros h r e He. cbn in He. injection He as <-. eexists. reflexivity. }
  destruct (create_command_assigns_fresh_id (example_env backend_down 0)
              (CommandWithContent.set_id example_command (Some "mine")) w0 Hlog eq_refl)
    as (w' & H & _).
  now rewrite H.
Defined.

(** ** Query, continued *)

Lemma pure_lift {A} (r : Res A) : pure_of (lift r).
Proof. now intros w. Qed.

Lemma pure_bind {A B} (m : M A) (k : A -> M B) :
  pure_of m -> (forall a, pure_of (k a)) -> pure_of (bind m k).
Proof.
  intros Hm Hk w. unfold bind. specialize (Hm w).
  destruct (m w) as [[a|e] w1]; cbn in Hm; subst w1; [apply Hk | reflexivity].
Qed.

Lemma pure_for_collect {A B} (l : list A) (body : A -> M B) :
  (forall x, pure_of (body x)) -> pure_of (for_collect l body).
Proof.
  intros Hb. induction l as [|x t IH]; [now intros w|].
  cbn [for_collect]. apply pure_bind; [apply Hb|]. intros y.
  apply pure_bind; [exact IH|]. now intros ys w.
Qed.

Section SupabaseQueryFacts.
Context (E : Env).

Lemma pure_row_to_chunk row :
  pure_of (PgVectorDataStore.row_to_chunk E row).
Proof.
  unfold PgVectorDataStore.row_to_chunk.
  repeat (apply pure_bind; [apply pure_lift | intros ?]). apply pure_lift.
Qed.

Lemma query_params_filter query :
  PgVectorDataStore.query_params E query =
  match QueryWithEmbedding.filter query with
  | Some filter => PgVectorDataStore.filter_params E (base_params query) filter
  | None => base_params query
  end.
Proof.
  unfold PgVectorDataStore.query_params, base_params.
  destruct (QueryWithEmbedding.filter query);
    now (destruct (QueryWithEmbedding.top_k query) as [k|];
         [destruct (truthy_int (Some k))|]).
Qed.

Lemma filter_params_start query filter :
  dict_get (PgVectorDataStore.filter_params E (base_params query) filter) "in_start_date"
  = when_truthy (DocumentMetadataFilter.start_date filter)
      (fun v => PDatetime (to_unix_timestamp E v)).
Proof.
  unfold PgVectorDataStore.filter_params.
  rewrite !dict_get_set_if_truthy. cbn [String.eqb Ascii.eqb Bool.eqb].
  destruct (DocumentMetadataFilter.source filter);
    rewrite ?dict_get_set, ?dict_get_set_if_truthy;
    cbn [String.eqb Ascii.eqb Bool.eqb];
    destruct (base_params_cases query) as [-> | [z ->]];
    now destruct (when_truthy _ _).
Qed.

Lemma filter_params_end query filter :
  dict_get (PgVectorDataStore.filter_params E (base_params query) filter) "in_end_date"
  = when_truthy (DocumentMetadataFilter.end_date filter)
      (fun v => PDatetime (to_unix_timestamp E v)).
Proof.
  unfold PgVectorDataStore.filter_params.
  rewrite !dict_get_set_if_truthy. cbn [String.eqb Ascii.eqb Bool.eqb].
  destruct (DocumentMetadataFilter.source filter);
    rewrite ?dict_get_set, ?dict_get_set_if_truthy;
    cbn [String.eqb Ascii.eqb Bool.eqb];
    destruct (base_params_cases query) as [-> | [z ->]];
    now destruct (when_truthy _ _).
Qed.

(** A date parameter of a query is a timestamp whenever it is there. *)
Lemma query_params_date query key :
  key = "in_start_date" \/ key = "in_end_date" ->
  dict_get (PgVectorDataStore.query_params E query) key = None
  \/ exists ts, dict_get (PgVectorDataStore.query_params E query) key = Some (PDatetime ts).
Proof.
  rewrite query_params_filter.
  destruct (QueryWithEmbedding.filter query) as [f|].
  - intros [-> | ->]; rewrite ?filter_params_start, ?filter_params_end;
      unfold when_truthy;
      match goal with |- context [truthy_str ?o] =>
        destruct (truthy_str o); [destruct o; [right; eexists; reflexivity | now left]
                                 | now left] end.
  - intros [-> | ->]; left;
      destruct (base_params_cases query) as [-> | [z ->]]; reflexivity.
Qed.

Lemma iso_param_step params key :
  dict_get params key = None \/ (exists ts, dict_get params key = Some (PDatetime ts)) ->
  match dict_get params key with
  | Some d => iso <- lift (isoformat_of E d) ;; ret (dict_set params key iso)
  | None => ret params
  end = ret (iso_param E params key).
Proof.
  unfold iso_param. intros [H | [ts H]]; rewrite H; reflexivity.
Qed.

Lemma iso_param_other params key k :
  String.eqb key k = false ->
  dict_get (iso_param E params key) k = dict_get params k.
Proof.
  intros Hk. unfold iso_param.
  destruct (dict_get params key) as [[]|]; rewrite ?dict_get_set, ?Hk; reflexivity.
Qed.

Lemma iso_param_same params key :
  dict_get (iso_param E params key) key =
  match dict_get params key with
  | Some (PDatetime ts) => Some (PStr (isoformat E ts))
  | other => other
  end.
Proof.
  unfold iso_param.
  destruct (dict_get params key) as [[]|] eqn:H; rewrite ?dict_get_set, ?String.eqb_refl;
    try exact H; reflexivity.
Qed.

(** The similarity call of a query always reaches the backend. *)
Lemma supabase_rpc_query query w :
  SupabaseClient.rpc E "match_page_sections" (PgVectorDataStore.query_params E query) w
  = SupabaseClient.exec E (Rpc "match_page_sections" (sent_params E query)) w.
Proof.
  unfold SupabaseClient.rpc, sent_params.
  rewrite (iso_param_step _ "in_start_date")
    by (apply query_params_date; now left).
  unfold bind at 1. unfold ret at 1.
  rewrite (iso_param_step _ "in_end_date")
    by (rewrite iso_param_other by reflexivity; apply query_params_date; now right).
  reflexivity.
Qed.

Lemma supabase_query_one query w :
  exists results w',
    PgVectorDataStore.query_one E (client := SupabaseClient.client E) query w
    = (Ok results, w')
    /\ executed (trace w')
       = executed (trace w) ++ [Rpc "match_page_sections" (sent_params E query)].
Proof.
  unfold PgVectorDataStore.query_one. unfold bind at 1. unfold log at 1.
  cbn [PGClient.rpc SupabaseClient.client]. unfold try_except.
  unfold bind at 1. rewrite supabase_rpc_query. unfold SupabaseClient.exec.
  cbn [trace now].
  match goal with |- context [execute E ?h ?r] => destruct (execute E h r) as [data|e] end.
  - unfold bind at 1.
    pose proof (pure_for_collect data (PgVectorDataStore.row_to_chunk E)
                  pure_row_to_chunk) as Hpure.
    match goal with |- context [for_collect data ?b ?w1] =>
      specialize (Hpure w1); destruct (for_collect data b w1) as [[chunks|e] w2] end;
      cbn in Hpure; subst w2; unfold ret, bind, log; eexists _, _;
      (split; [reflexivity|]); cbn [emit trace];
      now rewrite ?executed_log, executed_execute, executed_log.
  - unfold ret, bind, log. eexists _, _. split; [reflexivity|]. cbn [emit trace].
    now rewrite executed_log, executed_execute, executed_log.
Qed.

(** X9: on the Supabase client, a batch of queries executes one request per
    query and nothing else: the similarity procedure [match_page_sections],
    in the order of the queries, with the parameters of the query in which
    the date bounds are replaced by their ISO strings. *)
Theorem supabase_query_calls_procedure_once
    (queries : list QueryWithEmbedding.t) (w : World) :
  exists results w',
    PgVectorDataStore._query E (client := SupabaseClient.client E) queries w
    = (Ok results, w')
    /\ executed (trace w')
       = executed (trace w)
         ++ map (fun query => Rpc "match_page_sections" (sent_params E query)) queries.
Proof.
  unfold PgVectorDataStore._query. revert w.
  induction queries as [|q qs IH]; intros w.
  - exists [], w. split; [reflexivity|]. cbn. now rewrite app_nil_r.
  - destruct (supabase_query_one q w) as (r & w1 & H1 & Hx1).
    destruct (IH w1) as (rs & w2 & H2 & Hx2).
    exists (r :: rs), w2. split.
    + cbn [for_collect]. now rewrite (bind_Ok _ _ _ _ _ H1), (bind_Ok _ _ _ _ _ H2).
    + rewrite Hx2, Hx1. cbn [map]. now rewrite <- app_assoc.
Qed.

(** X10: in the parameters that reach the backend, the bounds [start_date]
    and [end_date] of the filter are the ISO strings of their timestamps
    when they are truthy and are absent otherwise; every other parameter is
    the one built for the query. *)
Theorem sent_params_dates (query : QueryWithEmbedding.t)
    (filter : DocumentMetadataFilter.t) :
  QueryWithEmbedding.filter query = Some filter ->
  dict_get (sent_params E query) "in_start_date"
  = when_truthy (DocumentMetadataFilter.start_date filter)
      (fun v => PStr (isoformat E (to_unix_timestamp E v)))
  /\ dict_get (sent_params E query) "in_end_date"
     = when_truthy (DocumentMetadataFilter.end_date filter)
         (fun v => PStr (isoformat E (to_unix_timestamp E v)))
  /\ (forall k, String.eqb "in_start_date" k = false ->
                String.eqb "in_end_date" k = false ->
                dict_get (sent_params E query) k
                = dict_get (PgVectorDataStore.query_params E query) k).
Proof.
  intros Hf. unfold sent_params. repeat split.
  - rewrite iso_param_other by reflexivity. rewrite iso_param_same.
    rewrite query_params_filter, Hf, filter_params_start. unfold when_truthy.
    destruct (DocumentMetadataFilter.start_date filter) as [s|];
      [destruct (truthy_str (Some s))|]; reflexivity.
  - rewrite iso_param_same. rewrite iso_param_other by reflexivity.
    rewrite query_params_filter, Hf, filter_params_end. unfold when_truthy.
    destruct (DocumentMetadataFilter.end_date filter) as [s|];
      [destruct (truthy_str (Some s))|]; reflexivity.
  - intros k H1 H2. now rewrite !iso_param_other.
Qed.

End SupabaseQueryFacts.

Lemma for_collect_raises {A B} (l : list A) (body : A -> M B) x e w :
  (forall y, pure_of (body y)) ->
  In x l -> fst (body x w) = Raise e ->
  exists e', for_collect l body w = (Raise e', w).
Proof.
  intros Hpure. induction l as [|x0 t IH]; [intros []|].
  intros Hin Hx. cbn [for_collect]. unfold bind at 1.
  pose proof (Hpure x0 w) as Hw.
  destruct (body x0 w) as [[y|e0] w1] eqn:H0; cbn in Hw; subst w1.
  - destruct Hin as [-> | Hin]; [rewrite H0 in Hx; discriminate|].
    destruct (IH Hin Hx) as [e' He']. exists e'. unfold bind. now rewrite He'.
  - now exists e0.
Qed.

Section QueryEdgeFacts.
Context (E : Env) {client : PGClient.t}.

(** X11: when one row of the answer to a similarity call cannot be turned
    into a chunk (a missing column, a value that is refused), the query
    returns no results at all, the chunks of the other rows included, and
    an error is logged. *)
Theorem malformed_row_empties_result (query : QueryWithEmbedding.t) (w : World)
    (data : list pyval) (w1 : World) (row : pyval) (e : exn) :
  PGClient.rpc "match_page_sections" (PgVectorDataStore.query_params E query)
    (emit E (Log INFO [Obj (PDict (PgVectorDataStore.query_params E query))]) w)
    = (Ok data, w1) ->
  In row data ->
  fst (PgVectorDataStore.row_to_chunk E row w1) = Raise e ->
  exists e',
    PgVectorDataStore.query_one E query w
    = (Ok (QueryResult.mk (QueryWithEmbedding.query query) []),
       emit E (Log ERROR_ [Exn e']) w1).
Proof.
  intros Hrpc Hin Hrow.
  destruct (for_collect_raises data (PgVectorDataStore.row_to_chunk E) row e w1
              (pure_row_to_chunk E) Hin Hrow) as [e' He'].
  exists e'. unfold PgVectorDataStore.query_one.
  unfold bind at 1. unfold log at 1.
  erewrite try_except_Raise; [reflexivity|].
  change (mkWorld (now w) _) with
    (emit E (Log INFO [Obj (PDict (PgVectorDataStore.query_params E query))]) w).
  rewrite (bind_Ok _ _ _ _ _ Hrpc). now apply bind_Raise.
Qed.

(** X12: the result cap is passed as [in_match_count] exactly when [top_k]
    is set and is not zero (with zero, as with None, the procedure runs on
    its own default), and the embedding is always passed as [in_embedding];
    neither is touched by the parameters of the filter. *)
Theorem query_params_match_count (query : QueryWithEmbedding.t) :
  dict_get (PgVectorDataStore.query_params E query) "in_match_count"
  = (if truthy_int (QueryWithEmbedding.top_k query)
     then option_map PInt (QueryWithEmbedding.top_k query) else None)
  /\ dict_get (PgVectorDataStore.query_params E query) "in_embedding"
     = Some (PList (map PFloat (QueryWithEmbedding.embedding query))).
Proof.
  assert (Hb : dict_get (base_params query) "in_match_count"
               = (if truthy_int (QueryWithEmbedding.top_k query)
                  then option_map PInt (QueryWithEmbedding.top_k query) else None)
               /\ dict_get (base_params query) "in_embedding"
                  = Some (PList (map PFloat (QueryWithEmbedding.embedding query)))).
  { unfold base_params.
    destruct (QueryWithEmbedding.top_k query) as [k|];
      [destruct (truthy_int (Some k))|]; split; reflexivity. }
  rewrite query_params_filter.
  destruct (QueryWithEmbedding.filter query) as [f|]; [|exact Hb].
  unfold PgVectorDataStore.filter_params.
  rewrite !dict_get_set_if_truthy. cbn [String.eqb Ascii.eqb Bool.eqb].
  destruct (DocumentMetadataFilter.source f);
    rewrite ?dict_get_set, ?dict_get_set_if_truthy;
    cbn [String.eqb Ascii.eqb Bool.eqb]; exact Hb.
Qed.

End QueryEdgeFacts.

Lemma sent_params_dates_witness :
  dict_get (sent_params (example_env backend_empty 0)
              (QueryWithEmbedding.mk "q"
                 (Some (DocumentMetadataFilter.mk None None None None (Some "2023-05-01") None))
                 (Some 3) []))
           "in_start_date"
  = Some (PStr "1970-01-01T00:00:00").
Proof.
  exact (proj1 (sent_params_dates (example_env backend_empty 0)
                  (QueryWithEmbedding.mk "q"
                     (Some (DocumentMetadataFilter.mk None None None None
                              (Some "2023-05-01") None))
                     (Some 3) [])
                  (DocumentMetadataFilter.mk None None None None (Some "2023-05-01") None)
                  eq_refl)).
Defined.

Lemma malformed_row_empties_result_witness :
  exists e',
    PgVectorDataStore.query_one (example_env backend_two_rows 0)
      (client := SupabaseClient.client (example_env backend_two_rows 0))
      (example_query "q" None) w0
    = (Ok (QueryResult.mk "q" []),
       emit (example_env backend_two_rows 0) (Log ERROR_ [Exn e'])
         (replay (example_env backend_two_rows 0) w0
            [Log INFO [Obj (PDict (PgVectorDataStore.query_params
                                     (example_env backend_two_rows 0)
                                     (example_query "q" None)))];
             Execute (Rpc "match_page_sections"
                        (sent_params (example_env backend_two_rows 0)
                           (example_query "q" None)))])).
Proof.
  apply (malformed_row_empties_result (example_env backend_two_rows 0)
           (client := SupabaseClient.client (example_env backend_two_rows 0))
           (example_query "q" None) w0
           [example_row; PDict [("id", PStr "B")]] _
           (PDict [("id", PStr "B")]) (KeyError "content")).
  - reflexivity.
  - right. now left.
  - reflexivity.
Defined.

(** ** Delete, continued *)

Section SupabaseDeleteFacts.
Context (E : Env).

Lemma date_if_truthy_raises builder field op column :
  truthy_str field = true ->
  SupabaseClient.date_if_truthy E builder field op column
  = Raise (AttributeError "isoformat").
Proof.
  unfold SupabaseClient.date_if_truthy.
  destruct field as [[|c s]|]; try discriminate. reflexivity.
Qed.

Lemma filter_conds_dates filter :
  truthy_str (DocumentMetadataFilter.start_date filter) = true
  \/ truthy_str (DocumentMetadataFilter.end_date filter) = true ->
  SupabaseClient.filter_conds E filter = Raise (AttributeError "isoformat").
Proof.
  unfold SupabaseClient.filter_conds.
  destruct (truthy_str (DocumentMetadataFilter.start_date filter)) eqn:Hs.
  - intros _. now rewrite (date_if_truthy_raises _ _ _ _ Hs).
  - intros [H | H]; [discriminate|].
    now rewrite (date_if_falsy E _ _ _ _ Hs), (date_if_truthy_raises _ _ _ _ H).
Qed.

Lemma filter_conds_equalities filter :
  truthy_str (DocumentMetadataFilter.start_date filter) = false ->
  truthy_str (DocumentMetadataFilter.end_date filter) = false ->
  SupabaseClient.filter_conds E filter = Ok (equality_conds filter).
Proof.
  intros Hs He. unfold SupabaseClient.filter_conds, equality_conds.
  rewrite !eq_if_truthy_app.
  rewrite (date_if_falsy E _ _ _ _ Hs), (date_if_falsy E _ _ _ _ He).
  destruct (DocumentMetadataFilter.source filter);
    simpl; rewrite <- ?app_assoc; simpl; now rewrite ?app_nil_r.
Qed.

Lemma supabase_delete_by_filters filter w :
  PGClient.delete_by_filters (t := SupabaseClient.client E) "documents" filter w =
  match SupabaseClient.filter_conds E filter with
  | Ok conds =>
      (match execute E (trace w) (Delete "documents" conds) with
       | Ok _ => Ok tt
       | Raise e => Raise e
       end, emit E (Execute (Delete "documents" conds)) w)
  | Raise e => (Raise e, w)
  end.
Proof.
  cbn [PGClient.delete_by_filters SupabaseClient.client].
  unfold SupabaseClient.delete_by_filters, bind, lift, ret, SupabaseClient.exec.
  destruct (SupabaseClient.filter_conds E filter) as [conds|e]; [|reflexivity].
  now destruct (execute E (trace w) (Delete "documents" conds)).
Qed.

(** X13: a delete by a filter that has a truthy [start_date] or [end_date]
    (and neither [delete_all] nor [ids] set) returns False and executes no
    request: the world is left as it was. *)
Theorem delete_by_date_filter_returns_false (ids : option (list string))
    (filter : DocumentMetadataFilter.t) (delete_all : option bool) (w : World) :
  truthy_bool delete_all = false ->
  truthy_list ids = false ->
  truthy_str (DocumentMetadataFilter.start_date filter) = true
  \/ truthy_str (DocumentMetadataFilter.end_date filter) = true ->
  PgVectorDataStore.delete (client := SupabaseClient.client E) ids (Some filter)
    delete_all w
  = (Ok false, w).
Proof.
  intros Ha Hi Hd. unfold PgVectorDataStore.delete. rewrite Ha.
  assert (Hf : try_except
                 (PGClient.delete_by_filters (t := SupabaseClient.client E)
                    "documents" filter ;;; ret true)
                 (fun _ => ret false) w = (Ok false, w)).
  { unfold try_except, bind. rewrite supabase_delete_by_filters.
    now rewrite (filter_conds_dates _ Hd). }
  destruct ids as [[|i l]|]; try exact Hf. discriminate.
Qed.

(** X14: a delete by a filter without truthy dates (and neither [delete_all]
    nor [ids] set) executes one request, the delete on [documents] under the
    equality predicates of the truthy fields, and returns whether the
    backend served it.  A filter without any truthy field gives a delete
    under no predicate at all. *)
Theorem delete_by_filter_request (ids : option (list string))
    (filter : DocumentMetadataFilter.t) (delete_all : option bool) (w : World) :
  truthy_bool delete_all = false ->
  truthy_list ids = false ->
  truthy_str (DocumentMetadataFilter.start_date filter) = false ->
  truthy_str (DocumentMetadataFilter.end_date filter) = false ->
  let request := Delete "documents" (equality_conds filter) in
  PgVectorDataStore.delete (client := SupabaseClient.client E) ids (Some filter)
    delete_all w
  = (Ok (is_ok (execute E (trace w) request)), emit E (Execute request) w)
  /\ (truthy_str (DocumentMetadataFilter.document_id filter) = false ->
      DocumentMetadataFilter.source filter = None ->
      truthy_str (DocumentMetadataFilter.source_id filter) = false ->
      truthy_str (DocumentMetadataFilter.author filter) = false ->
      request = Delete "documents" []).
Proof.
  intros Ha Hi Hs He request. subst request. split.
  - unfold PgVectorDataStore.delete. rewrite Ha.
    assert (Hf : try_except
                   (PGClient.delete_by_filters (t := SupabaseClient.client E)
                      "documents" filter ;;; ret true)
                   (fun _ => ret false) w
                 = (Ok (is_ok (execute E (trace w)
                                 (Delete "documents" (equality_conds filter)))),
                    emit E (Execute (Delete "documents" (equality_conds filter))) w)).
    { unfold try_except, bind. rewrite supabase_delete_by_filters.
      rewrite (filter_conds_equalities _ Hs He).
      now destruct (execute E (trace w) _). }
    destruct ids as [[|i l]|]; try exact Hf. discriminate.
  - intros H1 H2 H3 H4. unfold equality_conds. now rewrite H1, H2, H3, H4.
Qed.

(** X15: whatever its arguments, [delete] on the Supabase client returns a
    boolean and executes at most one request, which is a delete on the
    table [documents]; it writes no log line and sleeps never. *)
Theorem delete_at_most_one_request (ids : option (list string))
    (filter : option DocumentMetadataFilter.t) (delete_all : option bool) (w : World) :
  exists b w',
    PgVectorDataStore.delete (client := SupabaseClient.client E) ids filter delete_all w
    = (Ok b, w')
    /\ (w' = w \/ exists conds, w' = emit E (Execute (Delete "documents" conds)) w).
Proof.
  assert (Hcall : forall call : M unit,
            (exists r, call w = (r, w)
                       \/ exists conds,
                            call w = (r, emit E (Execute (Delete "documents" conds)) w)) ->
            exists b w',
              try_except (call ;;; ret true) (fun _ => ret false) w = (Ok b, w')
              /\ (w' = w \/ exists conds, w' = emit E (Execute (Delete "documents" conds)) w)).
  { intros call [r [H | [conds H]]]; unfold try_except, bind, ret; rewrite H;
      destruct r; eexists _, _; (split; [reflexivity|]); eauto. }
  unfold PgVectorDataStore.delete.
  destruct (truthy_bool delete_all).
  - apply Hcall. cbn [PGClient.delete_like SupabaseClient.client].
    unfold SupabaseClient.delete_like, bind, ret, SupabaseClient.exec.
    destruct (execute E (trace w) _); eexists; right; eexists; reflexivity.
  - assert (Hfilter : exists b w',
              match filter with
              | Some f =>
                  try_except
                    (PGClient.delete_by_filters (t := SupabaseClient.client E)
                       "documents" f ;;; ret true)
                    (fun _ => ret false)
              | None => ret true
              end w = (Ok b, w')
              /\ (w' = w \/ exists conds,
                     w' = emit E (Execute (Delete "documents" conds)) w)).
    { destruct filter as [f|]; [|exists true, w; split; [reflexivity | now left]].
      apply Hcall. rewrite supabase_delete_by_filters.
      destruct (SupabaseClient.filter_conds E f) as [conds|e].
      - eexists. right. exists conds. reflexivity.
      - eexists. left. reflexivity. }
    destruct ids as [[|i l]|]; try exact Hfilter.
    apply Hcall. cbn [PGClient.delete_in SupabaseClient.client].
    unfold SupabaseClient.delete_in, bind, ret, SupabaseClient.exec.
    destruct (execute E (trace w) _); eexists; right; eexists; reflexivity.
Qed.

End SupabaseDeleteFacts.

Lemma delete_by_date_filter_returns_false_witness :
  PgVectorDataStore.delete (client := SupabaseClient.client (example_env backend_empty 0))
    None (Some (DocumentMetadataFilter.mk (Some "doc1") None None None (Some "2023-05-01") None))
    None w0
  = (Ok false, w0).
Proof.
  apply (delete_by_date_filter_returns_false (example_env backend_empty 0) None
           (DocumentMetadataFilter.mk (Some "doc1") None None None (Some "2023-05-01") None)
           None w0); try reflexivity. now left.
Defined.

Lemma delete_by_filter_request_witness :
  PgVectorDataStore.delete (client := SupabaseClient.client (example_env backend_empty 0))
    (Some []) (Some (DocumentMetadataFilter.mk (Some "") None None None None None))
    None w0
  = (Ok true, mkWorld 0 [Execute (Delete "documents" [])]).
Proof.
  rewrite (proj1 (delete_by_filter_request (example_env backend_empty 0) (Some [])
                    (DocumentMetadataFilter.mk (Some "") None None None None None)
                    None w0 eq_refl eq_refl eq_refl eq_refl)).
  reflexivity.
Defined.

(** ** The command lifecycle, continued *)

Section EndpointFacts.
Context (E : Env).

Lemma executed_polled id w :
  executed (trace (replay E w (poll_events id))) = executed (trace w) ++ [fetch id].
Proof. rewrite trace_replay, executed_app. reflexivity. Qed.

(** The four ways an iteration of the loop can go. *)
Lemma poll_once_outcomes id request_command start_time w :
  let w1 := replay E w (poll_events id) in
  (exists e, Main.poll_once E id request_command start_time w = (Raise e, w1))
  \/ (exists response,
        Main.poll_once E id request_command start_time w = (Ok (Some response), w1))
  \/ (Main.DEADLINE < now w1 - start_time
      /\ Main.poll_once E id request_command start_time w
         = (PgVectorDataStore.update_command (client := Main.datastore E)
              (CommandWithContent.set_status request_command ABANDONED) ;;;
            ret (Some (CommandResponse.mk id (Some Main.TIMEOUT_MESSAGE)))) w1)
  \/ (now w1 - start_time <= Main.DEADLINE
      /\ Main.poll_once E id request_command start_time w
         = (Ok None, emit E (Sleep Main.INTERVAL) w1)).
Proof.
  intros w1. subst w1. rewrite poll_once_cases.
  destruct (execute E _ (fetch id)) as [[|row rest]|e]; [eauto | | eauto].
  destruct (new_Command E row) as [c|e]; [|eauto].
  destruct (Main.DEADLINE <? now (replay E w (poll_events id)) - start_time) eqn:Hlt;
    [apply Z.ltb_lt in Hlt | apply Z.ltb_ge in Hlt];
    destruct (Command.status c); eauto 6.
Qed.

(** Abandoning returns or raises, and executes at most the update. *)
Lemma abandon_outcomes command (response : CommandResponse.t) w :
  exists r w',
    (PgVectorDataStore.update_command (client := Main.datastore E) command ;;;
     ret (Some response)) w = (r, w')
    /\ r <> Ok None
    /\ (executed (trace w') = executed (trace w)
        \/ exists payload filters,
             executed (trace w') = executed (trace w) ++ [Update "commands" payload filters]).
Proof.
  unfold PgVectorDataStore.update_command.
  cbn [PGClient.update Main.datastore SupabaseClient.client].
  unfold SupabaseClient.update, bind, log, lift, ret, SupabaseClient.exec.
  destruct (getitem _ "id") as [id|e].
  - match goal with |- context [execute E ?h ?r] => destruct (execute E h r) end;
      eexists _, _; (split; [reflexivity|]); (split; [discriminate|]); right;
      eexists _, _; cbn [emit trace];
      now rewrite executed_execute, !executed_log.
  - eexists _, _. split; [reflexivity|]. split; [discriminate|]. left.
    cbn [trace]. now rewrite !executed_log.
Qed.

(** The requests of a run of the loop: fetches, and then at most the update. *)
Lemma poll_requests fuel id request_command start_time :
  forall w r w',
    Main.poll E fuel id request_command start_time w = Some (r, w') ->
    exists k update,
      (k <= fuel)%nat
      /\ executed (trace w') = executed (trace w) ++ repeat (fetch id) k ++ update
      /\ (update = [] \/ exists payload filters, update = [Update "commands" payload filters]).
Proof.
  induction fuel as [|fuel IH]; intros w r w'; [discriminate|].
  cbn [Main.poll].
  destruct (poll_once_outcomes id request_command start_time w)
    as [[e H] | [[response H] | [[_ H] | [_ H]]]]; rewrite H.
  - intros Heq. assert (Hw : replay E w (poll_events id) = w') by congruence.
    subst w'. exists 1%nat, []. split; [lia|]. split; [|now left].
    now rewrite executed_polled.
  - intros Heq. assert (Hw : replay E w (poll_events id) = w') by congruence.
    subst w'. exists 1%nat, []. split; [lia|]. split; [|now left].
    now rewrite executed_polled.
  - destruct (abandon_outcomes
                (CommandWithContent.set_status request_command ABANDONED)
                (CommandResponse.mk id (Some Main.TIMEOUT_MESSAGE))
                (replay E w (poll_events id))) as (r1 & w1 & -> & Hr & Hx).
    assert (Hend : Some (r, w')
                   = Some (match r1 with
                           | Ok (Some response) => Ok response
                           | Ok None => r
                           | Raise e => Raise e
                           end, w1) ->
                   exists k update,
                     (k <= S fuel)%nat
                     /\ executed (trace w') = executed (trace w) ++ repeat (fetch id) k ++ update
                     /\ (update = [] \/ exists payload filters,
                            update = [Update "commands" payload filters])).
    { intros Heq. assert (Hw : w1 = w') by congruence. subst w'.
      rewrite executed_polled in Hx.
      destruct Hx as [Hx | (p & c & Hx)].
      - exists 1%nat, []. split; [lia|]. split; [|now left]. now rewrite Hx.
      - exists 1%nat, [Update "commands" p c]. split; [lia|].
        split; [|right; now exists p, c]. rewrite Hx. now rewrite <- app_assoc. }
    destruct r1 as [[response|]|e]; [| now elim Hr |]; intros H1; apply Hend;
      now rewrite <- H1.
  - intros Hrec. apply IH in Hrec. destruct Hrec as (k & update & Hk & Hx & Hu).
    exists (S k), update. split; [lia|]. split; [|exact Hu].
    rewrite Hx. cbn [emit trace]. rewrite executed_sleep, executed_polled.
    cbn [repeat]. now rewrite <- !app_assoc.
Qed.

(** With a clock that does not run backwards the loop ends. *)
Lemma poll_terminates id request_command start_time :
  (forall h, 0 <= tick E h) ->
  forall f fuel w,
    (f < fuel)%nat ->
    Main.DEADLINE < now w - start_time + Main.INTERVAL * Z.of_nat f ->
    Main.poll E fuel id request_command start_time w <> None.
Proof.
  intros Hclock. induction f as [|f IH]; intros fuel w Hfuel Hd;
    (destruct fuel as [|fuel]; [lia|]); cbn [Main.poll];
    pose proof (now_polled E id w) as Hnow;
    pose proof (Hclock (trace w ++ [Log INFO [Text "Polling for command status..."]]))
      as Htick;
    destruct (poll_once_outcomes id request_command start_time w)
      as [[e H] | [[response H] | [[_ H] | [Hle H]]]]; rewrite H; try discriminate.
  - destruct (abandon_outcomes
                (CommandWithContent.set_status request_command ABANDONED)
                (CommandResponse.mk id (Some Main.TIMEOUT_MESSAGE))
                (replay E w (poll_events id))) as (r1 & w1 & -> & Hr & _).
    destruct r1 as [[response|]|e]; [discriminate | now elim Hr | discriminate].
  - unfold Main.DEADLINE, Main.INTERVAL in *. lia.
  - destruct (abandon_outcomes
                (CommandWithContent.set_status request_command ABANDONED)
                (CommandResponse.mk id (Some Main.TIMEOUT_MESSAGE))
                (replay E w (poll_events id))) as (r1 & w1 & -> & Hr & _).
    destruct r1 as [[response|]|e]; [discriminate | now elim Hr | discriminate].
  - apply IH; [lia|]. cbn [emit now].
    pose proof (Hclock (trace (replay E w (poll_events id)))).
    unfold Main.DEADLINE, Main.INTERVAL in *. lia.
Qed.

End EndpointFacts.

Section EndpointTheorems.
Context (E : Env).

(** The endpoint, by the outcome of the creation and of the loop. *)
Lemma create_command_cases fuel request_command w :
  let w0 :=
    emit E (Log INFO [Text "Received Command: ";
                      Obj (PDict (CommandWithContent.dict request_command))]) w in
  Main.create_command E fuel request_command w =
  match PgVectorDataStore.create_command E (client := Main.datastore E)
          request_command w0 with
  | (Ok (id, created), w1) =>
      match Main.poll E fuel id created (now w1) w1 with
      | Some (Ok response, w') => Some (Ok response, w')
      | Some (Raise e, w') => Some (Main.on_exception e w')
      | None => None
      end
  | (Raise e, w1) => Some (Main.on_exception e w1)
  end.
Proof.
  intros w0. subst w0. unfold Main.create_command. unfold log at 1. cbn beta iota.
  cbn [emit].
  destruct (PgVectorDataStore.create_command E request_command _) as [[[id created]|e] w1];
    reflexivity.
Qed.

Lemma on_exception_raises e w :
  Main.on_exception e w
  = (Raise (HTTPException 500 "Internal Service Error"),
     replay E w [Log ERROR_ [Exn e]; Log ERROR_ [Cause e]]).
Proof. reflexivity. Qed.

(** The creation sends the command and returns its id, or raises before
    anything is sent, or sends the command and raises out of the handler of
    the upsert. *)
Lemma datastore_create_outcomes command w0 :
  let id := uuid4 E (trace w0) in
  let created := CommandWithContent.set_id command (Some id) in
  exists w1,
    (PgVectorDataStore.create_command E (client := Main.datastore E) command w0
       = (Ok (id, created), w1)
     /\ exists payload,
          SupabaseClient.created_at_isoformat E
            (SupabaseClient.convert_dict (CommandWithContent.dict created)) = Ok payload
          /\ executed (trace w1) = executed (trace w0) ++ [Upsert "commands" payload])
    \/ (exists e,
          PgVectorDataStore.create_command E (client := Main.datastore E) command w0
            = (Raise e, w1)
          /\ SupabaseClient.created_at_isoformat E
               (SupabaseClient.convert_dict (CommandWithContent.dict created)) = Raise e
          /\ executed (trace w1) = executed (trace w0))
    \/ (exists e payload,
          PgVectorDataStore.create_command E (client := Main.datastore E) command w0
            = (Raise e, w1)
          /\ SupabaseClient.created_at_isoformat E
               (SupabaseClient.convert_dict (CommandWithContent.dict created)) = Ok payload
          /\ executed (trace w1) = executed (trace w0) ++ [Upsert "commands" payload]).
Proof.
  intros id created.
  set (logged :=
         replay E w0
           [Log INFO [Text "got to create command in pgvector data store. Id: "; Text id];
            Log INFO [Text "Command: "; Obj (PDict (CommandWithContent.dict created))]]).
  assert (Hcreate :
    PgVectorDataStore.create_command E (client := Main.datastore E) command w0
    = (SupabaseClient.upsert E "commands" (CommandWithContent.dict created) ;;;
       ret (id, created)) logged) by reflexivity.
  rewrite Hcreate.
  assert (Hlogged : executed (trace logged) = executed (trace w0)).
  { subst logged. rewrite trace_replay, executed_app. cbn. now rewrite app_nil_r. }
  destruct (supabase_upsert_cases E "commands" (CommandWithContent.dict created) logged)
    as (w2 & [(p & Hp & Hu & Hx) | [(e & He & Hu & Hx)
              | (p & h & e & e' & Hp & _ & _ & Hu & Hx)]]).
  - exists w2. left. split; [unfold bind; now rewrite Hu|].
    exists p. split; [exact Hp|]. now rewrite Hx, Hlogged.
  - exists w2. right. left. exists e. split; [unfold bind; now rewrite Hu|].
    split; [exact He|]. now rewrite Hx, Hlogged.
  - exists w2. right. right. exists e', p. split; [unfold bind; now rewrite Hu|].
    split; [exact Hp|]. now rewrite Hx, Hlogged.
Qed.

(** X16: whatever goes wrong in the endpoint, at the creation or while
    polling, what it raises is the HTTP error 500 with the detail
    "Internal Service Error", after two error log lines on the exception
    that was caught. *)
Theorem create_command_raises_only_http_500 (fuel : nat)
    (request_command : CommandWithContent.t) (w : World) (e : exn) (w' : World) :
  Main.create_command E fuel request_command w = Some (Raise e, w') ->
  e = HTTPException 500 "Internal Service Error"
  /\ exists cause before,
       trace w' = before ++ [Log ERROR_ [Exn cause]; Log ERROR_ [Cause cause]].
Proof.
  rewrite create_command_cases. cbn zeta.
  assert (Hon : forall cause w1,
            Some (Main.on_exception cause w1) = Some (Raise e, w') ->
            e = HTTPException 500 "Internal Service Error"
            /\ exists cause before,
                 trace w' = before ++ [Log ERROR_ [Exn cause]; Log ERROR_ [Cause cause]]).
  { intros cause w1. rewrite on_exception_raises. intros Heq.
    assert (He : HTTPException 500 "Internal Service Error" = e) by congruence.
    assert (Hw : replay E w1 [Log ERROR_ [Exn cause]; Log ERROR_ [Cause cause]] = w')
      by congruence.
    subst e w'. split; [reflexivity|]. exists cause, (trace w1).
    now rewrite trace_replay. }
  destruct (PgVectorDataStore.create_command E request_command _)
    as [[[id created]|cause] w1]; [|apply Hon].
  destruct (Main.poll E fuel id created (now w1) w1) as [[[response|cause] w2]|];
    [discriminate | apply Hon | discriminate].
Qed.

(** X17: with a clock that does not run backwards, the endpoint comes to an
    end within six iterations of its loop, whatever the backend answers. *)
Theorem create_command_ends_within_six_polls (fuel : nat)
    (request_command : CommandWithContent.t) (w : World) :
  (forall h, 0 <= tick E h) ->
  (6 <= fuel)%nat ->
  exists outcome, Main.create_command E fuel request_command w = Some outcome.
Proof.
  intros Hclock Hfuel. rewrite create_command_cases. cbn zeta.
  destruct (PgVectorDataStore.create_command E request_command _)
    as [[[id created]|cause] w1]; [|eexists; reflexivity].
  pose proof (poll_terminates E id created (now w1) Hclock 5%nat fuel w1) as Hend.
  destruct (Main.poll E fuel id created (now w1) w1) as [[[response|cause] w2]|].
  - eexists; reflexivity.
  - eexists; reflexivity.
  - elim Hend; [lia | unfold Main.DEADLINE, Main.INTERVAL; lia | reflexivity].
Qed.

(** X18: a request whose command carries [created_at] is never stored: the
    creation raises on the field before anything is sent, and the endpoint
    raises the HTTP error 500 without having executed a request. *)
Theorem create_command_with_created_at_fails (fuel : nat)
    (request_command : CommandWithContent.t) (created_at : string) (w : World) :
  CommandWithContent.created_at request_command = Some created_at ->
  exists w',
    Main.create_command E fuel request_command w
    = Some (Raise (HTTPException 500 "Internal Service Error"), w')
    /\ executed (trace w') = executed (trace w).
Proof.
  intros Hca. rewrite create_command_cases. cbn zeta.
  match goal with |- context [PgVectorDataStore.create_command E _ ?w0] =>
    destruct (created_at_present_raises E
                (CommandWithContent.set_id request_command (Some (uuid4 E (trace w0))))
                created_at) as [e0 He0];
      [destruct request_command; exact Hca|];
    destruct (datastore_create_outcomes request_command w0)
      as (w1 & [[_ (p & Hp & _)] | [(e & Hc & He & Hx) | (e & p & _ & Hp & _)]]) end.
  - congruence.
  - rewrite Hc, on_exception_raises. eexists. split; [reflexivity|].
    rewrite trace_replay, executed_app, Hx. cbn [emit trace].
    rewrite executed_log. cbn. now rewrite app_nil_r.
  - congruence.
Qed.

(** X20: the requests of a run of the endpoint, however it ends, are in
    this order: at most the upsert of the command into [commands]; fetches
    of that command, no more than iterations allowed; at most one update
    of [commands].  Nothing is ever deleted and no other table is
    touched. *)
Theorem create_command_requests (fuel : nat) (request_command : CommandWithContent.t)
    (w : World) (outcome : Res CommandResponse.t) (w' : World) :
  Main.create_command E fuel request_command w = Some (outcome, w') ->
  let id :=
    uuid4 E (trace w ++ [Log INFO [Text "Received Command: ";
                                   Obj (PDict (CommandWithContent.dict request_command))]]) in
  exists creation k update,
    executed (trace w')
    = executed (trace w) ++ creation ++ repeat (fetch id) k ++ update
    /\ (creation = [] \/ exists payload, creation = [Upsert "commands" payload])
    /\ (k <= fuel)%nat
    /\ (update = [] \/ exists payload filters, update = [Update "commands" payload filters]).
Proof.
  intros Hrun id. rewrite create_command_cases in Hrun. cbn zeta in Hrun.
  assert (Hfail : forall cause w1 creation,
            executed (trace w1) = executed (trace w) ++ creation ->
            (creation = [] \/ exists payload, creation = [Upsert "commands" payload]) ->
            Some (Main.on_exception cause w1) = Some (outcome, w') ->
            exists creation k update,
              executed (trace w')
              = executed (trace w) ++ creation ++ repeat (fetch id) k ++ update
              /\ (creation = [] \/ exists payload, creation = [Upsert "commands" payload])
              /\ (k <= fuel)%nat
              /\ (update = [] \/ exists payload filters,
                     update = [Update "commands" payload filters])).
  { intros cause w1 creation Hx Hcreation. rewrite on_exception_raises. intros Heq.
    assert (Hw : replay E w1 [Log ERROR_ [Exn cause]; Log ERROR_ [Cause cause]] = w')
      by congruence.
    subst w'. exists creation, 0%nat, []. rewrite trace_replay, executed_app, Hx. cbn.
    rewrite !app_nil_r. repeat split; auto; lia. }
  revert Hrun.
  match goal with |- context [PgVectorDataStore.create_command E _ ?w0] =>
    destruct (datastore_create_outcomes request_command w0)
      as (w1 & [[Hc (p & _ & Hx)] | [(e & Hc & _ & Hx) | (e & p & Hc & _ & Hx)]]) end;
    rewrite Hc.
  - cbn [emit trace] in Hx. rewrite executed_log in Hx.
    change (uuid4 E (trace (emit E _ w))) with id.
    destruct (Main.poll E fuel id _ (now w1) w1) as [[r w2]|] eqn:Hpoll; [|discriminate].
    apply poll_requests in Hpoll. destruct Hpoll as (k & update & Hk & Hx2 & Hu).
    assert (Hdone : forall w3, executed (trace w3) = executed (trace w2) ->
              exists creation k update,
                executed (trace w3)
                = executed (trace w) ++ creation ++ repeat (fetch id) k ++ update
                /\ (creation = [] \/ exists payload, creation = [Upsert "commands" payload])
                /\ (k <= fuel)%nat
                /\ (update = [] \/ exists payload filters,
                       update = [Update "commands" payload filters])).
    { intros w3 H3. exists [Upsert "commands" p], k, update.
      rewrite H3, Hx2, Hx. rewrite <- !app_assoc.
      repeat split; auto. right. now exists p. }
    destruct r as [response|cause].
    + intros Heq. assert (Hw : w2 = w') by congruence. subst w'. now apply Hdone.
    + rewrite on_exception_raises. intros Heq.
      assert (Hw : replay E w2 [Log ERROR_ [Exn cause]; Log ERROR_ [Cause cause]] = w')
        by congruence.
      subst w'. apply Hdone. rewrite trace_replay, executed_app. cbn.
      now rewrite app_nil_r.
  - apply (Hfail e w1 []); [|now left].
    rewrite Hx, app_nil_r. cbn [emit trace]. now rewrite executed_log.
  - apply (Hfail e w1 [Upsert "commands" p]); [|right; now exists p].
    rewrite Hx. cbn [emit trace]. now rewrite executed_log.
Qed.

End EndpointTheorems.

Section PollFailureFacts.
Context (E : Env).

Lemma poll_raises_after_rounds n id request_command start_time e :
  forall fuel w w'',
    (n < fuel)%nat ->
    (forall k, (k < n)%nat ->
       fst (Main.poll_once E id request_command start_time (replay E w (rounds k id)))
       = Ok None) ->
    Main.poll_once E id request_command start_time (replay E w (rounds n id))
      = (Raise e, w'') ->
    Main.poll E fuel id request_command start_time w = Some (Raise e, w'').
Proof.
  induction n as [|n IH]; intros fuel w w'' Hfuel Hround Hlast;
    (destruct fuel as [|fuel]; [lia|]); cbn [Main.poll].
  - cbn [rounds replay fold_left] in Hlast. now rewrite Hlast.
  - pose proof (Hround 0%nat ltac:(lia)) as H0.
    cbn [rounds replay fold_left] in H0.
    rewrite (poll_once_goes_round E _ _ _ _ H0). apply IH.
    + lia.
    + intros k Hk. rewrite <- replay_app. apply (Hround (S k)). lia.
    + rewrite <- replay_app. exact Hlast.
Qed.

(** X19: the loop has gone round [n] times and the next fetch fails.  When
    it yields no row for the id, the loop raises AttributeError for
    [status], looked up on the None that [get_command] returned; when
    the backend raises, the loop raises the same.  In both cases the loop
    ends with that fetch, without an update. *)
Theorem poll_fetch_failure (n fuel : nat) (id : string)
    (request_command : CommandWithContent.t) (start_time : Z) (w : World) :
  (n < fuel)%nat ->
  (forall k, (k < n)%nat ->
     fst (Main.poll_once E id request_command start_time (replay E w (rounds k id)))
     = Ok None) ->
  let h := trace (replay E w (rounds n id))
           ++ [Log INFO [Text "Polling for command status..."]] in
  let w' := replay E w (rounds n id ++ poll_events id) in
  (execute E h (fetch id) = Ok [] ->
     Main.poll E fuel id request_command start_time w
     = Some (Raise (AttributeError "status"), w'))
  /\ (forall e, execute E h (fetch id) = Raise e ->
     Main.poll E fuel id request_command start_time w = Some (Raise e, w')).
Proof.
  intros Hfuel Hround h w'. subst h w'. split.
  - intros Hx. apply (poll_raises_after_rounds n); try assumption.
    rewrite poll_once_cases, Hx. now rewrite replay_app.
  - intros e Hx. apply (poll_raises_after_rounds n); try assumption.
    rewrite poll_once_cases, Hx. now rewrite replay_app.
Qed.

End PollFailureFacts.

Lemma poll_fetch_failure_witness :
  Main.poll (example_env backend_empty 0) 1 "c1" example_command 0 w0
  = Some (Raise (AttributeError "status"),
          replay (example_env backend_empty 0) w0 (rounds 0 "c1" ++ poll_events "c1")).
Proof.
  assert (Hround : forall k, (k < 0)%nat ->
            fst (Main.poll_once (example_env backend_empty 0) "c1" example_command 0
                   (replay (example_env backend_empty 0) w0 (rounds k "c1")))
            = Ok None).
  { intros k Hk. lia. }
  apply (proj1 (poll_fetch_failure (example_env backend_empty 0) 0 1 "c1"
                  example_command 0 w0 (le_n 1) Hround)).
  reflexivity.
Defined.

Lemma create_command_raises_only_http_500_witness :
  exists cause before,
    trace (replay (example_env backend_empty 0) w0
             (removelast (creation_events example_command
                            (CommandWithContent.set_id example_command (Some "c1")) "c1")
              ++ [Execute (Upsert "commands"
                             (SupabaseClient.convert_dict
                                (CommandWithContent.dict
                                   (CommandWithContent.set_id example_command (Some "c1")))))]
              ++ poll_events "c1"
              ++ [Log ERROR_ [Exn (AttributeError "status")];
                  Log ERROR_ [Cause (AttributeError "status")]]))
    = before ++ [Log ERROR_ [Exn cause]; Log ERROR_ [Cause cause]].
Proof.
  exact (proj2 (create_command_raises_only_http_500 (example_env backend_empty 0) 1
                  example_command w0 (HTTPException 500 "Internal Service Error") _
                  eq_refl)).
Defined.

Lemma create_command_ends_within_six_polls_witness :
  exists outcome,
    Main.create_command (example_env (backend_status "PROCESSING" PNone) 3) 6
      example_command w0 = Some outcome.
Proof.
  apply (create_command_ends_within_six_polls
           (example_env (backend_status "PROCESSING" PNone) 3) 6 example_command w0).
  - intros h. cbn. lia.
  - lia.
Defined.

Lemma create_command_with_created_at_fails_witness :
  exists w',
    Main.create_command (example_env backend_empty 0) 0
      (CommandWithContent.mk None NEW None (Some "2023-05-01") None CREATE_NOTE
         (CommandContent.mk "a note" (DocumentMetadata.mk None None None None None)))
      w0
    = Some (Raise (HTTPException 500 "Internal Service Error"), w')
    /\ executed (trace w') = executed (trace w0).
Proof.
  apply (create_command_with_created_at_fails (example_env backend_empty 0) 0
           (CommandWithContent.mk None NEW None (Some "2023-05-01") None CREATE_NOTE
              (CommandContent.mk "a note" (DocumentMetadata.mk None None None None None)))
           "2023-05-01" w0 eq_refl).
Defined.

Lemma create_command_requests_witness :
  exists creation k update,
    executed
      (trace (replay (example_env (backend_status "COMPLETED" PNone) 0) w0
                (creation_events example_command
                   (CommandWithContent.set_id example_command (Some "c1")) "c1"
                 ++ poll_events "c1")))
    = executed (trace w0) ++ creation ++ repeat (fetch "c1") k ++ update
    /\ (creation = [] \/ exists payload, creation = [Upsert "commands" payload])
    /\ (k <= 3)%nat
    /\ (update = [] \/ exists payload filters, update = [Update "commands" payload filters]).
Proof.
  exact (create_command_requests (example_env (backend_status "COMPLETED" PNone) 0) 3
           example_command w0 (Ok (CommandResponse.mk "c1" None)) _ eq_refl).
Defined.
